(** * The commit-message generator and the repository bootstrap script

    A shallow embedding of [scripts/git-workflow.js] and of the GitHub
    bootstrap script, and the properties their specification states.

    JavaScript strings are sequences of UTF-16 code units; the embedding
    keeps them as lists of code units, so that [substring], [trim],
    [length] and friends count what the engine counts. *)

From Stdlib Require Import NArith List String Ascii Decimal.
From stdpp Require Import base decidable option list countable gmap.

(** ** JavaScript strings and the String methods the scripts call *)

Module JS.

#[local] Open Scope N_scope.

Abbreviation jsstring := (list N).

(** *** Literals

    A literal of the source is written [js "..."]: the UTF-8 bytes of the
    Rocq string are decoded to code points and re-encoded as UTF-16, a
    code point above U+FFFF becoming a surrogate pair. *)

Definition surrogates (cp : N) : jsstring :=
  let v := cp - 0x10000 in
  [0xD800 + N.shiftr v 10; 0xDC00 + N.land v 0x3FF].

Definition cont (b : N) : N := N.land b 0x3F.

Fixpoint utf16_of_utf8 (bs : list N) : jsstring :=
  match bs with
  | [] => []
  | b :: rest =>
      if b <? 0x80 then b :: utf16_of_utf8 rest
      else if b <? 0xE0 then
        match rest with
        | b1 :: rest' =>
            (N.shiftl (N.land b 0x1F) 6 + cont b1) :: utf16_of_utf8 rest'
        | _ => b :: utf16_of_utf8 rest
        end
      else if b <? 0xF0 then
        match rest with
        | b1 :: b2 :: rest' =>
            (N.shiftl (N.land b 0x0F) 12 + N.shiftl (cont b1) 6 + cont b2)
              :: utf16_of_utf8 rest'
        | _ => b :: utf16_of_utf8 rest
        end
      else
        match rest with
        | b1 :: b2 :: b3 :: rest' =>
            surrogates (N.shiftl (N.land b 0x07) 18 + N.shiftl (cont b1) 12
                        + N.shiftl (cont b2) 6 + cont b3)
              ++ utf16_of_utf8 rest'
        | _ => b :: utf16_of_utf8 rest
        end
  end.

Definition js (s : string) : jsstring :=
  utf16_of_utf8 (List.map N_of_ascii (list_ascii_of_string s)).

(** Characters that a Rocq string cannot hold unescaped. *)
Definition LF : N := 10.
Definition DQUOTE : N := 34.

(** *** Equality: [===] on two strings *)

Fixpoint str_eqb (a b : jsstring) : bool :=
  match a, b with
  | [], [] => true
  | x :: a', y :: b' => (x =? y) && str_eqb a' b'
  | _, _ => false
  end.

(** *** [String.prototype.trim]

    White space is the ECMAScript WhiteSpace production (TAB, VT, FF, SP,
    NBSP, ZWNBSP and the Unicode space separators) together with the
    line terminators LF, CR, LS and PS. All of them are single code
    units. *)

Definition is_white_space (c : N) : bool :=
  (c =? 0x09) || (c =? 0x0A) || (c =? 0x0B) || (c =? 0x0C) || (c =? 0x0D)
  || (c =? 0x20) || (c =? 0xA0) || (c =? 0x1680)
  || ((0x2000 <=? c) && (c <=? 0x200A))
  || (c =? 0x2028) || (c =? 0x2029) || (c =? 0x202F) || (c =? 0x205F)
  || (c =? 0x3000) || (c =? 0xFEFF).

Fixpoint trimStart (s : jsstring) : jsstring :=
  match s with
  | c :: s' => if is_white_space c then trimStart s' else s
  | [] => []
  end.

Definition trimEnd (s : jsstring) : jsstring := rev (trimStart (rev s)).

Definition trim (s : jsstring) : jsstring := trimEnd (trimStart s).

(** *** [substring(start, end)] and [substring(start)] for literal,
    non-negative, ordered indices (the only calls in the source). *)

Definition substring (s : jsstring) (i j : nat) : jsstring :=
  firstn (j - i) (skipn i s).

Definition substring_from (s : jsstring) (i : nat) : jsstring := skipn i s.

(** *** [startsWith], [endsWith], [includes] *)

Fixpoint startsWith (s p : jsstring) {struct p} : bool :=
  match p, s with
  | [], _ => true
  | x :: p', y :: s' => (x =? y) && startsWith s' p'
  | _ :: _, [] => false
  end.

Definition endsWith (s p : jsstring) : bool := startsWith (rev s) (rev p).

Fixpoint includes (s p : jsstring) : bool :=
  startsWith s p ||
  match s with
  | [] => false
  | _ :: s' => includes s' p
  end.

(** *** [split] on a separator of one code unit, [Array.prototype.join] *)

Fixpoint split (sep : N) (s : jsstring) : list jsstring :=
  match s with
  | [] => [[]]
  | c :: s' =>
      if c =? sep then [] :: split sep s'
      else match split sep s' with
           | piece :: pieces => (c :: piece) :: pieces
           | [] => [[c]]
           end
  end.

Fixpoint join (sep : jsstring) (parts : list jsstring) : jsstring :=
  match parts with
  | [] => []
  | [p] => p
  | p :: rest => p ++ sep ++ join sep rest
  end.

(** *** Number-to-string conversion of an array length (template
    literals [${n}]): its decimal digits. *)

Fixpoint digits (d : Decimal.uint) : jsstring :=
  match d with
  | Nil => []
  | D0 d => 48 :: digits d | D1 d => 49 :: digits d
  | D2 d => 50 :: digits d | D3 d => 51 :: digits d
  | D4 d => 52 :: digits d | D5 d => 53 :: digits d
  | D6 d => 54 :: digits d | D7 d => 55 :: digits d
  | D8 d => 56 :: digits d | D9 d => 57 :: digits d
  end.

Definition number_to_string (n : nat) : jsstring := digits (Nat.to_uint n).

End JS.

Import JS.

(** ** [scripts/git-workflow.js] *)

Module GitWorkflow.

(** *** The environment

    The script reads its surroundings through two calls: [execSync], which
    runs a command line and returns its standard output or throws, and
    [fs.readFileSync], which returns a file's text or throws. A [World]
    answers both; [None] is a throw. *)

Record World := {
  execSync : jsstring -> option jsstring;
  readFileSync : jsstring -> option jsstring
}.

(** [try { body } catch (error) { return handler }]: the body runs in the
    option monad, a throw anywhere in it yields the handler's value. *)
Definition try_catch {A} (body : option A) (handler : A) : A :=
  default handler body.

(** [getGitStatus] *)
Definition getGitStatus (w : World) : jsstring :=
  try_catch (status ← execSync w (js "git status --porcelain");
             Some (trim status))
            [].

(** *** Plain objects used as dictionaries

    [descriptions] is an object literal [{}] written with
    [descriptions[fileName] = text] and read with [descriptions[file]].
    Own properties are a finite map. The key [__proto__] is special in a
    plain object: assigning a string to it is ignored by the inherited
    setter and reading it yields [Object.prototype]. Other names inherited
    from [Object.prototype] are shadowed by the own property once
    assigned, and the script reads no key it has not assigned. *)

Inductive jsvalue :=
| VString (s : jsstring)
| VUndefined
| VObjectPrototype.

Definition PROTO : jsstring := js "__proto__".

Definition set_property (o : gmap jsstring jsstring) (key value : jsstring)
  : gmap jsstring jsstring :=
  if decide (key = PROTO) then o else <[key := value]> o.

Definition get_property (o : gmap jsstring jsstring) (key : jsstring)
  : jsvalue :=
  if decide (key = PROTO) then VObjectPrototype
  else match o !! key with
       | Some s => VString s
       | None => VUndefined
       end.

(** The text [Array.prototype.join] gives an element: the empty string for
    [undefined], [ToString] otherwise. *)
Definition element_text (v : jsvalue) : jsstring :=
  match v with
  | VString s => s
  | VUndefined => []
  | VObjectPrototype => js "[object Object]"
  end.

(** *** [analyzeNewFile] *)

Definition SLASH : N := 47%N.

(** [.replace(/\.(tsx|jsx)$/, "")]: the pattern is anchored at the end of
    the string and matches four code units. *)
Definition replace_tsx_jsx_suffix (s : jsstring) : jsstring :=
  if endsWith s (js ".tsx") || endsWith s (js ".jsx")
  then firstn (length s - 4) s
  else s.

Definition analyzeNewFile (w : World) (fileName : jsstring) : jsstring :=
  try_catch
    (content ← readFileSync w fileName;
     if endsWith fileName (js ".tsx") || endsWith fileName (js ".jsx") then
       if includes content (js "export default function")
          || includes content (js "export default class")
       then
         (* [.pop()] of an empty array would be [undefined] and the
            [.replace] on it a TypeError, caught below *)
         base ← last (split SLASH fileName);
         let componentName := replace_tsx_jsx_suffix base in
         Some (js "new React component: " ++ componentName)
       else Some (js "new React component")
     else if endsWith fileName (js ".ts") || endsWith fileName (js ".js") then
       if includes fileName (js "config") then Some (js "new configuration file")
       else if includes fileName (js "script") then Some (js "new utility script")
       else Some (js "new TypeScript/JavaScript file")
     else if endsWith fileName (js ".css") then Some (js "new stylesheet")
     else if endsWith fileName (js ".json") then Some (js "new configuration")
     else if endsWith fileName (js ".md") then Some (js "new documentation")
     else Some (js "new file"))
    (js "new file").

(** *** [analyzeModifiedFile] *)

Definition DEPENDENCIES : jsstring := DQUOTE :: js "dependencies" ++ [DQUOTE].
Definition SCRIPTS : jsstring := DQUOTE :: js "scripts" ++ [DQUOTE].

Definition analyzeModifiedFile (w : World) (fileName : jsstring) : jsstring :=
  try_catch
    (diff ← execSync w (js "git diff --no-ext-diff " ++ fileName);
     if endsWith fileName (js ".tsx") || endsWith fileName (js ".jsx") then
       if includes diff (js "className=") then Some (js "update component styling")
       else if includes diff (js "import ") then Some (js "update component imports")
       else if includes diff (js "export default") then Some (js "update component structure")
       else if includes diff (js "//") || includes diff (js "/*")
       then Some (js "update component comments")
       else Some (js "update React component")
     else if endsWith fileName (js ".json") then
       if includes diff DEPENDENCIES then Some (js "update dependencies")
       else if includes diff SCRIPTS then Some (js "update npm scripts")
       else Some (js "update configuration")
     else if endsWith fileName (js ".css") then Some (js "update styles")
     else if endsWith fileName (js ".md") then Some (js "update documentation")
     else if endsWith fileName (js ".ts") || endsWith fileName (js ".js")
     then Some (js "update code logic")
     else Some (js "update file content"))
    (js "update file").

(** *** [analyzeFileChanges] *)

Record Buckets := {
  added : list jsstring;
  modified : list jsstring;
  deleted : list jsstring;
  renamed : list jsstring
}.

(** [changes] is either the literal [{}] of the early return or the
    object with the four category arrays. *)
Inductive ChangeSet :=
| NoKeys
| Categories (b : Buckets).

Record Analysis := {
  changes : ChangeSet;
  descriptions : gmap jsstring jsstring
}.

(** The body of the [forEach] callback; the two mutated objects are the
    state it threads. *)
Definition processLine (w : World) (st : Buckets * gmap jsstring jsstring)
  (line : jsstring) : Buckets * gmap jsstring jsstring :=
  let '(b, d) := st in
  let statusCode := trim (substring line 0 2) in
  let fileName := substring_from line 3 in
  if str_eqb statusCode (js "A") || str_eqb statusCode (js "A ") then
    ({| added := added b ++ [fileName]; modified := modified b;
        deleted := deleted b; renamed := renamed b |},
     set_property d fileName (analyzeNewFile w fileName))
  else if str_eqb statusCode (js "M") || str_eqb statusCode (js " M") then
    ({| added := added b; modified := modified b ++ [fileName];
        deleted := deleted b; renamed := renamed b |},
     set_property d fileName (analyzeModifiedFile w fileName))
  else if str_eqb statusCode (js "D") || str_eqb statusCode (js " D") then
    ({| added := added b; modified := modified b;
        deleted := deleted b ++ [fileName]; renamed := renamed b |},
     set_property d fileName (js "deleted file"))
  else if str_eqb statusCode (js "R") || str_eqb statusCode (js "R ") then
    ({| added := added b; modified := modified b;
        deleted := deleted b; renamed := renamed b ++ [fileName] |},
     set_property d fileName (js "renamed file"))
  else (b, d).

Definition nonblank (line : jsstring) : bool :=
  negb (str_eqb (trim line) []).

Definition no_buckets : Buckets :=
  {| added := []; modified := []; deleted := []; renamed := [] |}.

Definition analyzeFileChanges (w : World) : Analysis :=
  let status := getGitStatus w in
  if str_eqb status [] then {| changes := NoKeys; descriptions := ∅ |}
  else
    let lines := List.filter nonblank (split LF status) in
    let '(b, d) := fold_left (processLine w) lines (no_buckets, ∅) in
    {| changes := Categories b; descriptions := d |}.

(** *** [generateCommitMessage] *)

Definition plural (n : nat) : jsstring := if (1 <? n)%nat then js "s" else [].

(** [changes.<category>.map((file) => descriptions[file]).join(", ")] *)
Definition fileDescriptions (d : gmap jsstring jsstring)
  (files : list jsstring) : jsstring :=
  join (js ", ") (List.map (fun file => element_text (get_property d file)) files).

(** [if (message) message += "\n"] *)
Definition newline_if_started (message : jsstring) : jsstring :=
  if str_eqb message [] then message else message ++ [LF].

(** Lines 143 to 184: what runs once [changes] has its four keys. *)
Definition assembleMessage (b : Buckets) (d : gmap jsstring jsstring)
  : jsstring :=
  let message := [] in
  let message :=
    if (0 <? length (added b))%nat then
      let message := message ++ js "✨ Add " ++ number_to_string (length (added b))
                       ++ js " new file" ++ plural (length (added b)) in
      if (length (added b) <=? 2)%nat
      then message ++ js ": " ++ fileDescriptions d (added b)
      else message
    else message in
  let message :=
    if (0 <? length (modified b))%nat then
      let message := newline_if_started message in
      let message := message ++ js "🔧 Update " ++ number_to_string (length (modified b))
                       ++ js " file" ++ plural (length (modified b)) in
      if (length (modified b) <=? 2)%nat
      then message ++ js ": " ++ fileDescriptions d (modified b)
      else message
    else message in
  let message :=
    if (0 <? length (deleted b))%nat then
      let message := newline_if_started message in
      message ++ js "🗑️ Remove " ++ number_to_string (length (deleted b))
        ++ js " file" ++ plural (length (deleted b))
    else message in
  let message :=
    if (0 <? length (renamed b))%nat then
      let message := newline_if_started message in
      message ++ js "🔄 Rename " ++ number_to_string (length (renamed b))
        ++ js " file" ++ plural (length (renamed b))
    else message in
  if str_eqb message [] then js "Update project files" else message.

(** [Object.keys(changes).length === 0] holds of the literal [{}] only. *)
Definition generateCommitMessage (w : World) : jsstring :=
  let r := analyzeFileChanges w in
  match changes r with
  | NoKeys => js "No changes to commit"
  | Categories b => assembleMessage b (descriptions r)
  end.

End GitWorkflow.

(** ** The repository bootstrap script *)

Module Bootstrap.

(** *** The environment and the process

    Commands are run for their effect ([stdio] is ignored or inherited), so
    [execSync] either succeeds or throws an [Error] with a message.
    [package_json] is what loading the module finds: [None] when reading
    or parsing [package.json] throws, otherwise the [name] string of the
    manifest if it has one. *)

Inductive exec_result :=
| Succeeds
| Throws (message : jsstring).

Record World := {
  package_json : option (option jsstring);
  cwd_basename : jsstring;
  run_command : jsstring -> exec_result;
  existsSync : jsstring -> bool
}.

(** What the process does that an observer can see. *)
Inductive event :=
| Exec (command : jsstring)
| ConsoleLog (args : list jsstring)
| ConsoleError (args : list jsstring).

(** A computation either returns or ends the process with an exit code;
    either way it appends to the trace. [process.exit] cannot be caught. *)
Inductive outcome (A : Type) :=
| Returned (a : A)
| Exited (code : nat).
Arguments Returned {A} a.
Arguments Exited {A} code.

Definition Proc (A : Type) : Type := list event -> outcome A * list event.

#[export] Instance proc_ret : MRet Proc := fun A a tr => (Returned a, tr).

#[export] Instance proc_bind : MBind Proc := fun A B f m tr =>
  match m tr with
  | (Returned a, tr') => f a tr'
  | (Exited code, tr') => (Exited code, tr')
  end.

Definition emit (e : event) : Proc unit := fun tr => (Returned tt, tr ++ [e]).
Definition console_log (args : list jsstring) : Proc unit := emit (ConsoleLog args).
Definition console_error (args : list jsstring) : Proc unit := emit (ConsoleError args).
Definition process_exit {A} (code : nat) : Proc A := fun tr => (Exited code, tr).

Definition execSync (w : World) (command : jsstring) : Proc exec_result :=
  emit (Exec command);; mret (run_command w command).

Definition run {A} (p : Proc A) : outcome A * list event := p [].

(** *** The script *)

Definition checkGitHubCLI (w : World) : Proc bool :=
  r ← execSync w (js "gh --version");
  match r with
  | Succeeds => mret true
  | Throws _ => mret false
  end.

Definition checkGitHubAuth (w : World) : Proc bool :=
  r ← execSync w (js "gh auth status");
  match r with
  | Succeeds => mret true
  | Throws _ => mret false
  end.

(** [appName || currentDir] *)
Definition repoName (appName : option jsstring) (currentDir : jsstring)
  : jsstring :=
  match appName with
  | Some (c :: name) => c :: name
  | _ => currentDir
  end.

Definition createGitHubRepo (w : World) (appName : option jsstring)
  : Proc unit :=
  let repoName := repoName appName (cwd_basename w) in
  console_log [js "🚀 Creating GitHub repository: " ++ repoName];;
  r ← execSync w (js "gh repo create " ++ repoName
                    ++ js " --public --source=. --remote=origin --push");
  match r with
  | Succeeds =>
      console_log [js "✅ Successfully created GitHub repository: https://github.com/YOUR_USERNAME/"
                     ++ repoName];;
      console_log [js "📝 Don't forget to update the README.md with your project description!"]
  | Throws message =>
      console_error [js "❌ Failed to create GitHub repository:"; message];;
      console_log [LF :: js "💡 Make sure you:"];;
      console_log [js "   1. Have GitHub CLI installed (gh)"];;
      console_log [js "   2. Are authenticated with GitHub CLI (gh auth login)"];;
      console_log [js "   3. Have git initialized in this directory"]
  end.

Definition main (w : World) (appName : option jsstring) : Proc unit :=
  console_log [js "🔍 Checking prerequisites..."];;
  cli ← checkGitHubCLI w;
  (if negb cli then
     console_error [js "❌ GitHub CLI (gh) is not installed."];;
     console_log [js "📦 Install it from: https://cli.github.com/"];;
     process_exit 1
   else mret tt);;
  auth ← checkGitHubAuth w;
  (if negb auth then
     console_error [js "❌ You are not authenticated with GitHub CLI."];;
     console_log [js "🔐 Run: gh auth login"];;
     process_exit 1
   else mret tt);;
  (if negb (existsSync w (js ".git")) then
     console_log [js "📁 Initializing git repository..."];;
     r ← execSync w (js "git init");
     match r with
     | Succeeds => mret tt
     | Throws _ =>
         console_error [js "❌ Failed to initialize git repository"];;
         process_exit 1
     end
   else mret tt);;
  createGitHubRepo w appName.

(** The module body: [package.json] is read and parsed before [main] is
    called; an exception there is uncaught and ends the process with
    status 1. *)
Definition script (w : World) : Proc unit :=
  match package_json w with
  | None => process_exit 1
  | Some appName => main w appName
  end.

(** A repository-creation attempt: a [gh repo create] command was run. *)
Definition is_repo_create (e : event) : bool :=
  match e with
  | Exec command => startsWith command (js "gh repo create")
  | _ => false
  end.

End Bootstrap.

(** ** What the specification says, as definitions *)

Module Spec.

Import GitWorkflow.

Inductive Category := Added | Modified | Deleted | Renamed.

#[export] Instance Category_eq_dec : EqDecision Category.
Proof. solve_decision. Defined.

Definition bucket (c : Category) (b : Buckets) : list jsstring :=
  match c with
  | Added => added b
  | Modified => modified b
  | Deleted => deleted b
  | Renamed => renamed b
  end.

Definition categories : list Category := [Added; Modified; Deleted; Renamed].

(** *** Status lines *)

(** The lines the parser's loop visits. *)
Definition status_lines (w : World) : list jsstring :=
  List.filter nonblank (split LF (getGitStatus w)).

(** The path of a status line: what follows the two-character code and the
    separator. *)
Definition path_of (line : jsstring) : jsstring := substring_from line 3.

(** Routing as section 4.1 words it: the two-character code is tested for
    its first letter, [M] also behind a leading space. *)
Definition claimed_route (line : jsstring) : option Category :=
  let code := substring line 0 2 in
  if startsWith code (js "A") then Some Added
  else if startsWith code (js "M") || str_eqb code (js " M") then Some Modified
  else if startsWith code (js "D") then Some Deleted
  else if startsWith code (js "R") then Some Renamed
  else None.

(** Routing by the exact code: the two-character code with the white space
    around it removed is the single letter of the category. *)
Definition route (line : jsstring) : option Category :=
  match trim (substring line 0 2) with
  | [c] =>
      if (c =? 65)%N then Some Added
      else if (c =? 77)%N then Some Modified
      else if (c =? 68)%N then Some Deleted
      else if (c =? 82)%N then Some Renamed
      else None
  | _ => None
  end.

Definition routed (c : Category) (lines : list jsstring) : list jsstring :=
  List.map path_of
    (List.filter (fun line => bool_decide (route line = Some c)) lines).

Definition routed_buckets (lines : list jsstring) : Buckets :=
  {| added := routed Added lines; modified := routed Modified lines;
     deleted := routed Deleted lines; renamed := routed Renamed lines |}.

(** What the loop body does with a line routed to a category. *)
Definition push (c : Category) (fileName : jsstring) (b : Buckets) : Buckets :=
  match c with
  | Added => {| added := added b ++ [fileName]; modified := modified b;
                deleted := deleted b; renamed := renamed b |}
  | Modified => {| added := added b; modified := modified b ++ [fileName];
                   deleted := deleted b; renamed := renamed b |}
  | Deleted => {| added := added b; modified := modified b;
                  deleted := deleted b ++ [fileName]; renamed := renamed b |}
  | Renamed => {| added := added b; modified := modified b;
                  deleted := deleted b; renamed := renamed b ++ [fileName] |}
  end.

Definition description_of (w : World) (c : Category) (fileName : jsstring)
  : jsstring :=
  match c with
  | Added => analyzeNewFile w fileName
  | Modified => analyzeModifiedFile w fileName
  | Deleted => js "deleted file"
  | Renamed => js "renamed file"
  end.

Definition append_buckets (b b' : Buckets) : Buckets :=
  {| added := added b ++ added b'; modified := modified b ++ modified b';
     deleted := deleted b ++ deleted b'; renamed := renamed b ++ renamed b' |}.

(** Every path in a bucket, [__proto__] apart, has an own entry in
    [descriptions]: the message assembler reads no key that was not
    written. *)
Definition all_described (b : Buckets) (d : gmap jsstring jsstring) : Prop :=
  forall c file, In file (bucket c b) -> file <> PROTO -> is_Some (d !! file).

(** The status line git prints for a file added to the index. *)
Definition added_line (path : jsstring) : jsstring := js "A  " ++ path.

(** *** Summary lines of the commit message *)

Definition headline (c : Category) (n : nat) : jsstring :=
  match c with
  | Added => js "✨ Add " ++ number_to_string n ++ js " new file" ++ plural n
  | Modified => js "🔧 Update " ++ number_to_string n ++ js " file" ++ plural n
  | Deleted => js "🗑️ Remove " ++ number_to_string n ++ js " file" ++ plural n
  | Renamed => js "🔄 Rename " ++ number_to_string n ++ js " file" ++ plural n
  end.

(** The per-file detail: present for at most two files. *)
Definition detail (d : gmap jsstring jsstring) (files : list jsstring)
  : jsstring :=
  if (length files <=? 2)%nat then js ": " ++ fileDescriptions d files else [].

(** Section 4.3 as worded: every category's line carries the detail. *)
Definition claimed_line (d : gmap jsstring jsstring) (c : Category)
  (files : list jsstring) : jsstring :=
  headline c (length files) ++ detail d files.

(** What the lines are: only added and modified files are detailed. *)
Definition detailed (c : Category) : bool :=
  match c with
  | Added | Modified => true
  | Deleted | Renamed => false
  end.

Definition summary_line (d : gmap jsstring jsstring) (c : Category)
  (files : list jsstring) : jsstring :=
  headline c (length files) ++ (if detailed c then detail d files else []).

(** One line per non-empty category, in the fixed order. *)
Definition lines_with (line : Category -> list jsstring -> jsstring)
  (b : Buckets) : list jsstring :=
  flat_map (fun c => match bucket c b with
                     | [] => []
                     | files => [line c files]
                     end) categories.

Definition claimed_message (b : Buckets) (d : gmap jsstring jsstring)
  : jsstring :=
  join [LF] (lines_with (claimed_line d) b).

Definition summary_lines (b : Buckets) (d : gmap jsstring jsstring)
  : list jsstring :=
  lines_with (summary_line d) b.

(** *** The modified-component classifier as an ordered table *)

Definition component_rules : list ((jsstring -> bool) * jsstring) :=
  [ (fun diff => includes diff (js "className="), js "update component styling");
    (fun diff => includes diff (js "import "), js "update component imports");
    (fun diff => includes diff (js "export default"), js "update component structure");
    (fun diff => includes diff (js "//") || includes diff (js "/*"),
      js "update component comments") ].

Fixpoint first_match (rules : list ((jsstring -> bool) * jsstring))
  (diff fallback : jsstring) : jsstring :=
  match rules with
  | [] => fallback
  | (test, label) :: rules' =>
      if test diff then label else first_match rules' diff fallback
  end.

Definition is_component_script (fileName : jsstring) : bool :=
  endsWith fileName (js ".tsx") || endsWith fileName (js ".jsx").

Definition has_export_default (content : jsstring) : bool :=
  includes content (js "export default function")
  || includes content (js "export default class").

Definition git_diff (fileName : jsstring) : jsstring :=
  js "git diff --no-ext-diff " ++ fileName.

End Spec.

(** ** Environments used as examples *)

Module Examples.

Import GitWorkflow.

Fixpoint assoc (table : list (jsstring * jsstring)) (key : jsstring)
  : option jsstring :=
  match table with
  | [] => None
  | (k, v) :: table' => if str_eqb k key then Some v else assoc table' key
  end.

(** A working tree: the output of [git status --porcelain], the readable
    files and the diffs git can compute. Everything else throws. *)
Definition tree (status : jsstring) (files diffs : list (jsstring * jsstring))
  : World :=
  {| execSync command :=
       if str_eqb command (js "git status --porcelain") then Some status
       else assoc (List.map (fun '(f, diff) => (Spec.git_diff f, diff)) diffs)
                  command;
     readFileSync := assoc files |}.

(** Outside a repository [git status] fails. *)
Definition no_repository : World :=
  {| execSync _ := None; readFileSync _ := None |}.

Definition clean_tree : World := tree [] [] [].

Definition two_added : World :=
  tree (js "A  a.txt" ++ [LF] ++ js "A  docs/b.md" ++ [LF]) [] [].

Definition added_then_edited : World :=
  tree (js "AM notes.md" ++ [LF]) [(js "notes.md", js "# notes")] [].



Definition one_deleted : World :=
  tree (js "D  old.txt" ++ [LF]) [] [].

Definition untracked_only : World :=
  tree (js "?? notes.txt" ++ [LF] ++ js "?? tmp/" ++ [LF]) [] [].

Definition button_and_manifest : World :=
  tree (js "A  src/Button.tsx" ++ [LF] ++ js "M  package.json" ++ [LF])
       [(js "src/Button.tsx", js "export const Button = () => null;")]
       [(js "package.json", js "+  " ++ DEPENDENCIES ++ js ": {")].

Definition unreadable_and_undiffable : World :=
  tree (js "A  gone.tsx" ++ [LF] ++ js "M  lost.json" ++ [LF]
          ++ js "A  kept.css" ++ [LF])
       [(js "kept.css", js "body {}")] [].

Definition unstaged_edit : World :=
  tree (js " M src/a.ts" ++ [LF]) [] [(js "src/a.ts", js "+x")].

Definition proto_file : World :=
  tree (js "A  __proto__" ++ [LF]) [(js "__proto__", js "x")] [].

Definition gh_missing : Bootstrap.World :=
  {| Bootstrap.package_json := Some (Some (js "calendar"));
     Bootstrap.cwd_basename := js "calendar";
     Bootstrap.run_command _ := Bootstrap.Throws (js "Command failed");
     Bootstrap.existsSync _ := false |}.

Definition gh_logged_out : Bootstrap.World :=
  {| Bootstrap.package_json := Some (Some (js "calendar"));
     Bootstrap.cwd_basename := js "calendar";
     Bootstrap.run_command command :=
       if str_eqb command (js "gh auth status")
       then Bootstrap.Throws (js "Command failed: gh auth status")
       else Bootstrap.Succeeds;
     Bootstrap.existsSync _ := true |}.

End Examples.

(** ** [scripts/git-workflow.js]: the workflow driver and the command line *)

Module GitWorkflowCLI.

Import GitWorkflow.

(** *** The machine

    The driver changes what it then reads: [git add .] moves files into
    the index, and the commit message is generated afterwards. A machine
    has states; in a state the calls the script makes to read
    ([git status], [git status --porcelain], [git diff --no-ext-diff]
    and [fs.readFileSync]) are answered by the [World] the state shows,
    and a command run for its effect ([stdio] inherited: [git add .],
    [git commit], [git push]) succeeds or throws and leaves a new state.

    The reads are commands too, run through a shell with the file name
    as it stands. The model takes them as observations: it assumes that
    they leave the machine as it is, and the trace does not list them.
    What is proved about traces and states below is about the commands
    run for their effect. *)

Record Machine := {
  state : Type;
  observe : state -> World;
  perform : state -> jsstring -> Bootstrap.exec_result * state
}.

(** A computation threads the machine state and a trace: the commands
    run for their effect and the console output, in order. It returns, or
    [process.exit] ends the process. *)
Definition Run (m : Machine) (A : Type) : Type :=
  state m * list Bootstrap.event ->
  Bootstrap.outcome A * (state m * list Bootstrap.event).

#[export] Instance run_ret (m : Machine) : MRet (Run m) :=
  fun A a st => (Bootstrap.Returned a, st).

#[export] Instance run_bind (m : Machine) : MBind (Run m) := fun A B f p st =>
  match p st with
  | (Bootstrap.Returned a, st') => f a st'
  | (Bootstrap.Exited code, st') => (Bootstrap.Exited code, st')
  end.

Definition emit {m : Machine} (e : Bootstrap.event) : Run m unit :=
  fun st => (Bootstrap.Returned tt, (st.1, st.2 ++ [e])).

Definition console_log {m : Machine} (args : list jsstring) : Run m unit :=
  emit (Bootstrap.ConsoleLog args).

Definition console_error {m : Machine} (args : list jsstring) : Run m unit :=
  emit (Bootstrap.ConsoleError args).

Definition process_exit {m : Machine} {A : Type} (code : nat) : Run m A :=
  fun st => (Bootstrap.Exited code, st).

(** A reading function of the script ([checkGitInitialized],
    [getGitStatus], [generateCommitMessage]), answered by the current
    state. The commands it runs are not in the trace, and by assumption
    they do not move the machine: see above. *)
Definition query {m : Machine} {A : Type} (f : World -> A) : Run m A :=
  fun st => (Bootstrap.Returned (f (observe m st.1)), st).

(** [execSync(command, { stdio: "inherit" })] *)
Definition execSync_inherit {m : Machine} (command : jsstring)
  : Run m Bootstrap.exec_result :=
  fun st =>
    let '(r, s') := perform m st.1 command in
    (Bootstrap.Returned r, (s', st.2 ++ [Bootstrap.Exec command])).

Definition run {m : Machine} {A : Type} (p : Run m A) (s : state m)
  : Bootstrap.outcome A * (state m * list Bootstrap.event) :=
  p (s, []).

(** *** [checkGitInitialized] *)

Definition checkGitInitialized (w : World) : bool :=
  try_catch (_ ← execSync w (js "git status"); Some true) false.

(** *** [executeGitWorkflow] *)

(** The [catch] block of the driver. *)
Definition workflow_failed {m : Machine} (message : jsstring) : Run m unit :=
  console_error [js "❌ Error during git workflow:"; message];;
  process_exit 1.

Definition commit_command (commitMessage : jsstring) : jsstring :=
  js "git commit -m " ++ DQUOTE :: commitMessage ++ [DQUOTE].

Definition executeGitWorkflow {m : Machine} : Run m unit :=
  console_log [js "🔍 Checking git status..."];;
  initialized ← query checkGitInitialized;
  (if negb initialized then
     console_error [js "❌ Git repository not initialized."];;
     console_log [js "💡 Run: git init"];;
     process_exit 1
   else mret tt);;
  status ← query getGitStatus;
  if str_eqb status [] then
    console_log [js "✅ No changes to commit"]
  else
    console_log [js "📋 Changes detected:"];;
    console_log [status];;
    console_log [];;
    console_log [js "📦 Staging changes..."];;
    r ← execSync_inherit (js "git add .");
    match r with
    | Bootstrap.Throws message => workflow_failed message
    | Bootstrap.Succeeds =>
        commitMessage ← query generateCommitMessage;
        console_log [js "💬 Commit message: " ++ commitMessage];;
        console_log [js "💾 Committing changes..."];;
        r ← execSync_inherit (commit_command commitMessage);
        match r with
        | Bootstrap.Throws message => workflow_failed message
        | Bootstrap.Succeeds =>
            console_log [js "🚀 Pushing to remote..."];;
            r ← execSync_inherit (js "git push");
            match r with
            | Bootstrap.Throws message => workflow_failed message
            | Bootstrap.Succeeds =>
                console_log [js "✅ Git workflow completed successfully!"]
            end
        end
    end.

(** *** [showHelp] *)

Definition help_text : jsstring :=
  join [LF]
    [ [];
      js "📝 Git Workflow Script";
      [];
      js "Usage: npm run git-workflow";
      [];
      js "This script will:";
      js "1. Check if git is initialized";
      js "2. Show current changes";
      js "3. Stage all changes (git add .)";
      js "4. Generate a descriptive commit message";
      js "5. Commit changes (git commit -m " ++ DQUOTE :: js "..." ++ DQUOTE :: js ")";
      js "6. Push to remote (git push)";
      [];
      js "Options:";
      js "  --help, -h    Show this help message";
      js "  --dry-run     Show what would be done without executing";
      [] ].

Definition showHelp {m : Machine} : Run m unit := console_log [help_text].

(** *** [main]; [args] is [process.argv.slice(2)] *)

(** [args.includes(flag)] *)
Definition has_flag (args : list jsstring) (flag : jsstring) : bool :=
  existsb (str_eqb flag) args.

Definition main {m : Machine} (args : list jsstring) : Run m unit :=
  if has_flag args (js "--help") || has_flag args (js "-h") then showHelp
  else if has_flag args (js "--dry-run") then
    console_log [js "🔍 Dry run mode - checking what would be done..."];;
    status ← query getGitStatus;
    if str_eqb status [] then console_log [js "✅ No changes to commit"]
    else
      console_log [js "📋 Changes that would be committed:"];;
      console_log [status];;
      commitMessage ← query generateCommitMessage;
      console_log [js "💬 Commit message: " ++ commitMessage]
  else executeGitWorkflow.

(** The commands a trace shows, in the order they were run. *)
Definition commands (trace : list Bootstrap.event) : list jsstring :=
  flat_map (fun e => match e with
                     | Bootstrap.Exec command => [command]
                     | _ => []
                     end) trace.

(** The three commands of a full run. *)
Definition full_run (commitMessage : jsstring) : list jsstring :=
  [js "git add ."; commit_command commitMessage; js "git push"].

End GitWorkflowCLI.

(** ** Machines used as examples *)

Module Sessions.

Import GitWorkflow GitWorkflowCLI Examples.

(** A machine with two states, before and after staging: [git add .]
    moves from the first world to the second, and the commands named in
    [failing] throw. *)
Definition staging (before after : World) (failing : list jsstring) : Machine :=
  {| state := bool;
     observe staged := if staged then after else before;
     perform staged command :=
       if existsb (str_eqb command) failing
       then (Bootstrap.Throws (js "Command failed: " ++ command), staged)
       else (Bootstrap.Succeeds,
             if str_eqb command (js "git add .") then true else staged) |}.

(** A repository: [git status] answers. *)
Definition repository (status : jsstring)
  (files diffs : list (jsstring * jsstring)) : World :=
  {| execSync command :=
       if str_eqb command (js "git status") then Some []
       else execSync (tree status files diffs) command;
     readFileSync := readFileSync (tree status files diffs) |}.

Definition card_file : list (jsstring * jsstring) :=
  [(js "src/Card.tsx", js "export default function Card() {}")].

Definition new_card : Machine :=
  staging (repository (js "?? src/Card.tsx" ++ [LF]) card_file [])
          (repository (js "A  src/Card.tsx" ++ [LF]) card_file [])
          [].

Definition new_card_offline : Machine :=
  staging (repository (js "?? src/Card.tsx" ++ [LF]) card_file [])
          (repository (js "A  src/Card.tsx" ++ [LF]) card_file [])
          [js "git push"].

Definition outside_repository : Machine := staging no_repository no_repository [].


(** A directory without [.git] in which [git init] fails. *)
Definition init_refused : Bootstrap.World :=
  {| Bootstrap.package_json := Some None;
     Bootstrap.cwd_basename := js "calendar";
     Bootstrap.run_command command :=
       if str_eqb command (js "git init")
       then Bootstrap.Throws (js "Command failed: git init")
       else Bootstrap.Succeeds;
     Bootstrap.existsSync _ := false |}.

(** A repository whose name is taken on the hosting side. *)
Definition name_taken : Bootstrap.World :=
  {| Bootstrap.package_json := Some (Some (js "calendar"));
     Bootstrap.cwd_basename := js "work";
     Bootstrap.run_command command :=
       if startsWith command (js "gh repo create")
       then Bootstrap.Throws (js "Command failed: gh repo create")
       else Bootstrap.Succeeds;
     Bootstrap.existsSync _ := true |}.

End Sessions.

(** ** Definitions for the further properties *)

Module Extra.

Import GitWorkflow GitWorkflowCLI Spec.

(** What the driver has printed when it starts staging. *)
Definition staging_prologue (status : jsstring) : list Bootstrap.event :=
  [Bootstrap.ConsoleLog [js "🔍 Checking git status..."];
   Bootstrap.ConsoleLog [js "📋 Changes detected:"];
   Bootstrap.ConsoleLog [status];
   Bootstrap.ConsoleLog [];
   Bootstrap.ConsoleLog [js "📦 Staging changes..."]].

(** The state [git add .] leaves and the message generated in it. *)
Definition staged (m : Machine) (s : state m) : state m :=
  (perform m s (js "git add .")).2.

Definition staged_message (m : Machine) (s : state m) : jsstring :=
  generateCommitMessage (observe m (staged m s)).

(** The code letter of a category, as a code unit. *)
Definition letter (c : Category) : N :=
  match c with
  | Added => 65%N
  | Modified => 77%N
  | Deleted => 68%N
  | Renamed => 82%N
  end.

(** Every recorded description is free of newlines. *)
Definition one_line_values (d : gmap jsstring jsstring) : Prop :=
  forall key value, d !! key = Some value -> LF ∉ value.

(** The five ways a run of the driver can go. *)
Inductive course (m : Machine) (s : state m) : Prop :=
| Uninitialized :
    checkGitInitialized (observe m s) = false -> course m s
| Clean :
    checkGitInitialized (observe m s) = true ->
    getGitStatus (observe m s) = [] -> course m s
| AddFails message s1 :
    checkGitInitialized (observe m s) = true ->
    getGitStatus (observe m s) <> [] ->
    perform m s (js "git add .") = (Bootstrap.Throws message, s1) -> course m s
| CommitFails s1 message s2 :
    checkGitInitialized (observe m s) = true ->
    getGitStatus (observe m s) <> [] ->
    perform m s (js "git add .") = (Bootstrap.Succeeds, s1) ->
    perform m s1 (commit_command (generateCommitMessage (observe m s1)))
      = (Bootstrap.Throws message, s2) -> course m s
| Pushes s1 s2 r s3 :
    checkGitInitialized (observe m s) = true ->
    getGitStatus (observe m s) <> [] ->
    perform m s (js "git add .") = (Bootstrap.Succeeds, s1) ->
    perform m s1 (commit_command (generateCommitMessage (observe m s1)))
      = (Bootstrap.Succeeds, s2) ->
    perform m s2 (js "git push") = (r, s3) -> course m s.

(** The command [createGitHubRepo] runs. *)
Definition create_command (w : Bootstrap.World) (appName : option jsstring)
  : jsstring :=
  js "gh repo create " ++ Bootstrap.repoName appName (Bootstrap.cwd_basename w)
    ++ js " --public --source=. --remote=origin --push".

End Extra.

Import GitWorkflow Spec Examples.

Arguments js : simpl never.

(** * Properties *)

(** ** Facts about the string methods *)

Section StringFacts.

Implicit Types (s p t : jsstring) (c sep : N).

Lemma str_eqb_eq s t : str_eqb s t = true <-> s = t.
Proof.
  revert t; induction s as [|x s IH]; intros [|y t]; simpl; try easy.
  rewrite andb_true_iff, N.eqb_eq, IH. split.
  - intros [-> ->]; reflexivity.
  - intros [= -> ->]; auto.
Qed.

Lemma str_eqb_neq s t : str_eqb s t = false <-> s <> t.
Proof.
  rewrite <- str_eqb_eq. destruct (str_eqb s t); split; congruence.
Qed.

Lemma str_eqb_refl s : str_eqb s s = true.
Proof. apply str_eqb_eq; reflexivity. Qed.

Lemma startsWith_app p s : startsWith (p ++ s) p = true.
Proof.
  induction p as [|x p IH]; simpl; [reflexivity|].
  rewrite N.eqb_refl; exact IH.
Qed.

Lemma endsWith_app s p : endsWith (s ++ p) p = true.
Proof. unfold endsWith. rewrite rev_app_distr. apply startsWith_app. Qed.

Lemma startsWith_prefix s p : startsWith s p = true -> exists t, s = p ++ t.
Proof.
  revert s; induction p as [|x p IH]; intros s; simpl.
  - exists s; reflexivity.
  - destruct s as [|y s]; [discriminate|].
    rewrite andb_true_iff, N.eqb_eq. intros [-> H].
    destruct (IH _ H) as [t ->]. exists t; reflexivity.
Qed.

Lemma endsWith_suffix s p : endsWith s p = true -> exists t, s = t ++ p.
Proof.
  unfold endsWith. intros H. destruct (startsWith_prefix _ _ H) as [t E].
  exists (rev t). apply (f_equal (@rev N)) in E.
  rewrite rev_involutive, rev_app_distr, rev_involutive in E. exact E.
Qed.

(** [trimStart] removes a prefix, and what is left does not start with
    white space. *)
Lemma trimStart_suffix s : exists ws, s = ws ++ trimStart s.
Proof.
  induction s as [|c s [ws IH]]; simpl.
  - exists []; reflexivity.
  - destruct (is_white_space c).
    + exists (c :: ws); simpl; congruence.
    + exists []; reflexivity.
Qed.

Lemma trimStart_head s c t :
  trimStart s = c :: t -> is_white_space c = false.
Proof.
  induction s as [|x s IH]; simpl; [discriminate|].
  destruct (is_white_space x) eqn:E; [exact IH|].
  intros [= <- _]; exact E.
Qed.

Lemma trim_head s c t : trim s = c :: t -> is_white_space c = false.
Proof.
  unfold trim, trimEnd. intros H.
  destruct (trimStart_suffix (rev (trimStart s))) as [ws Hws].
  apply (f_equal (@rev N)) in Hws.
  rewrite rev_involutive, rev_app_distr, H in Hws. simpl in Hws.
  apply (trimStart_head s c (t ++ rev ws)). exact Hws.
Qed.

Lemma trim_last s c t : trim s = t ++ [c] -> is_white_space c = false.
Proof.
  unfold trim, trimEnd. intros H.
  apply (f_equal (@rev N)) in H.
  rewrite rev_involutive, rev_app_distr in H. simpl in H.
  exact (trimStart_head _ _ _ H).
Qed.

(** [trim] leaves nothing exactly when there was only white space. *)
Lemma trimStart_nil s : trimStart s = [] <-> forallb is_white_space s = true.
Proof.
  induction s as [|c s IH]; simpl; [easy|].
  destruct (is_white_space c); simpl; [exact IH | easy].
Qed.

Lemma forallb_rev (f : N -> bool) s : forallb f (rev s) = forallb f s.
Proof.
  induction s as [|c s IH]; simpl; [reflexivity|].
  rewrite forallb_app, IH. simpl. rewrite andb_true_r. apply andb_comm.
Qed.

Lemma trim_nil s : trim s = [] <-> forallb is_white_space s = true.
Proof.
  unfold trim, trimEnd. rewrite <- trimStart_nil. split.
  - intros H. apply (f_equal (@rev N)) in H.
    rewrite rev_involutive in H. simpl in H.
    apply trimStart_nil in H. rewrite forallb_rev in H.
    destruct (trimStart s) as [|c t] eqn:E; [reflexivity|].
    apply trimStart_head in E. simpl in H. rewrite E in H. discriminate.
  - intros ->. reflexivity.
Qed.

(** [split] gives at least one piece, and undoes [join] when no piece
    holds the separator. *)
Lemma split_not_nil sep s : split sep s <> [].
Proof.
  destruct s as [|c s]; simpl; [easy|].
  destruct (c =? sep)%N; [easy|]. destruct (split sep s); easy.
Qed.

Lemma split_without sep s : ~ In sep s -> split sep s = [s].
Proof.
  induction s as [|c s IH]; simpl; [reflexivity|]. intros H.
  destruct (N.eqb_spec c sep) as [->|_]; [tauto|].
  rewrite IH by tauto. reflexivity.
Qed.

Lemma split_app_sep sep s t :
  ~ In sep s -> split sep (s ++ sep :: t) = s :: split sep t.
Proof.
  induction s as [|c s IH]; simpl; intros H.
  - rewrite N.eqb_refl. reflexivity.
  - destruct (N.eqb_spec c sep) as [->|_]; [tauto|].
    rewrite IH by tauto. reflexivity.
Qed.

Lemma split_join sep (parts : list jsstring) :
  parts <> [] -> Forall (fun s => ~ In sep s) parts ->
  split sep (join [sep] parts) = parts.
Proof.
  induction parts as [|s parts IH]; [easy|]. intros _ H.
  inversion H as [|? ? Hs Hparts]; subst.
  destruct parts as [|s' parts].
  - simpl. apply split_without, Hs.
  - change (join [sep] (s :: s' :: parts))
      with (s ++ sep :: join [sep] (s' :: parts)).
    rewrite split_app_sep by exact Hs. f_equal. apply IH; easy.
Qed.

(** The last piece of a path is what follows its last separator. *)
Lemma last_cons_not_nil (x : jsstring) (l : list jsstring) :
  l <> [] -> last (x :: l) = last l.
Proof. destruct l; easy. Qed.

Lemma split_app_shape sep s t :
  exists x l, split sep (s ++ sep :: t) = x :: l /\ l <> []
              /\ last l = last (split sep t).
Proof.
  induction s as [|c s (x & l & E & Hl & IH)]; simpl.
  - rewrite N.eqb_refl. exists [], (split sep t).
    split; [reflexivity|]. split; [apply split_not_nil | reflexivity].
  - destruct (c =? sep)%N; rewrite E.
    + exists [], (x :: l). split; [reflexivity|]. split; [easy|].
      rewrite <- IH. apply last_cons_not_nil, Hl.
    + exists (c :: x), l. repeat split; assumption.
Qed.

Lemma last_split_app sep s t :
  last (split sep (s ++ sep :: t)) = last (split sep t).
Proof.
  destruct (split_app_shape sep s t) as (x & l & -> & Hl & <-).
  apply last_cons_not_nil, Hl.
Qed.

End StringFacts.

(** ** Facts about the status parser *)

Section ParserFacts.

Variable w : World.

Implicit Types (b : Buckets) (d : gmap jsstring jsstring) (line : jsstring).

Lemma space_is_white : is_white_space 32%N = true.
Proof. reflexivity. Qed.

(** The loop body tests the trimmed code against one-letter and
    two-character strings; a trimmed string neither starts nor ends with a
    space, so only the one-letter tests can succeed. *)
Lemma processLine_route b d line :
  processLine w (b, d) line =
    match route line with
    | Some c => (push c (path_of line) b,
                 set_property d (path_of line)
                   (description_of w c (path_of line)))
    | None => (b, d)
    end.
Proof.
  unfold processLine, route, path_of.
  change (js "A") with [65%N]. change (js "A ") with [65%N; 32%N].
  change (js "M") with [77%N]. change (js " M") with [32%N; 77%N].
  change (js "D") with [68%N]. change (js " D") with [32%N; 68%N].
  change (js "R") with [82%N]. change (js "R ") with [82%N; 32%N].
  destruct (trim (substring line 0 2)) as [|c [|c' t]] eqn:E.
  - reflexivity.
  - simpl. rewrite !andb_true_r, !andb_false_r, !orb_false_r.
    destruct (c =? 65)%N; [reflexivity|].
    destruct (c =? 77)%N; [reflexivity|].
    destruct (c =? 68)%N; [reflexivity|].
    destruct (c =? 82)%N; reflexivity.
  - assert (Hc : is_white_space c = false) by exact (trim_head _ _ _ E).
    assert (Hc' : t = [] -> is_white_space c' = false).
    { intros ->. exact (trim_last _ c' [c] E). }
    assert (Hhead : (c =? 32)%N = false).
    { destruct (N.eqb_spec c 32) as [->|]; [|reflexivity].
      rewrite space_is_white in Hc; discriminate. }
    assert (Htail : (c' =? 32)%N && str_eqb t [] = false).
    { destruct (N.eqb_spec c' 32) as [->|]; [|reflexivity].
      destruct t; [|reflexivity].
      rewrite space_is_white in Hc'. discriminate Hc'. reflexivity. }
    simpl. rewrite Hhead, Htail, !andb_false_r. reflexivity.
Qed.

Lemma append_no_buckets b : append_buckets no_buckets b = b.
Proof. destruct b; reflexivity. Qed.

Lemma routed_cons c line lines :
  routed c (line :: lines) =
    if bool_decide (route line = Some c)
    then path_of line :: routed c lines else routed c lines.
Proof. unfold routed. simpl. destruct (bool_decide _); reflexivity. Qed.

Lemma routed_buckets_cons b line lines :
  append_buckets b (routed_buckets (line :: lines)) =
    append_buckets
      (match route line with Some c => push c (path_of line) b | None => b end)
      (routed_buckets lines).
Proof.
  unfold routed_buckets, append_buckets. rewrite !routed_cons.
  destruct (route line) as [[]|]; simpl; rewrite <- ?app_assoc; reflexivity.
Qed.

(** The loop as a whole: each bucket receives, in input order, the paths
    of the lines routed to it. *)
Lemma fold_processLine_buckets lines b d :
  (fold_left (processLine w) lines (b, d)).1 =
    append_buckets b (routed_buckets lines).
Proof.
  revert b d; induction lines as [|line lines IH]; intros b d.
  - destruct b; unfold append_buckets; simpl. rewrite !app_nil_r. reflexivity.
  - rewrite routed_buckets_cons.
    change (fold_left (processLine w) (line :: lines) (b, d))
      with (fold_left (processLine w) lines (processLine w (b, d) line)).
    rewrite processLine_route.
    destruct (route line) as [c|]; apply IH.
Qed.

Lemma analyzeFileChanges_clean :
  getGitStatus w = [] ->
  analyzeFileChanges w = {| changes := NoKeys; descriptions := ∅ |}.
Proof. unfold analyzeFileChanges. intros ->. reflexivity. Qed.

Lemma analyzeFileChanges_changes :
  getGitStatus w <> [] ->
  changes (analyzeFileChanges w) = Categories (routed_buckets (status_lines w)).
Proof.
  intros H. unfold analyzeFileChanges.
  apply str_eqb_neq in H. rewrite H.
  fold (status_lines w).
  pose proof (fold_processLine_buckets (status_lines w) no_buckets ∅) as E.
  destruct (fold_left _ _ _) as [b d]. simpl in *.
  rewrite E, append_no_buckets. reflexivity.
Qed.

(** The keyless object is returned for the empty status text only. *)
Lemma analyzeFileChanges_NoKeys :
  changes (analyzeFileChanges w) = NoKeys <-> getGitStatus w = [].
Proof.
  split.
  - intros H. destruct (getGitStatus w) as [|c s] eqn:E; [reflexivity|].
    rewrite analyzeFileChanges_changes in H; [discriminate|].
    rewrite E; discriminate.
  - intros H. rewrite analyzeFileChanges_clean by exact H. reflexivity.
Qed.

End ParserFacts.

(** ** Facts about the message assembler *)

Section AssemblerFacts.

Implicit Types (b : Buckets) (d : gmap jsstring jsstring).

#[local] Arguments number_to_string : simpl never.
#[local] Arguments plural : simpl never.
#[local] Arguments fileDescriptions : simpl never.

(** Every headline starts with a code unit: the message is non-empty as
    soon as one line was written. *)
Lemma headline_literals :
  exists u1 s1 u2 s2 u3 s3 u4 s4,
    js "✨ Add " = u1 :: s1 /\ js "🔧 Update " = u2 :: s2 /\
    js "🗑️ Remove " = u3 :: s3 /\ js "🔄 Rename " = u4 :: s4.
Proof. vm_compute. repeat eexists. Qed.

Lemma assembleMessage_lines b d :
  assembleMessage b d =
    match summary_lines b d with
    | [] => js "Update project files"
    | lines => join [LF] lines
    end.
Proof.
  destruct headline_literals as (u1 & s1 & u2 & s2 & u3 & s3 & u4 & s4
                                 & E1 & E2 & E3 & E4).
  unfold assembleMessage, summary_lines, lines_with, summary_line, detail,
    headline, categories, newline_if_started.
  rewrite E1, E2, E3, E4. clear E1 E2 E3 E4.
  generalize (js " new file") (js " file") (js ": ") (js "Update project files").
  intros t1 t2 t3 t4.
  destruct b as [[|a0 a] [|m0 m] [|d0 dl] [|r0 r]]; simpl;
    repeat match goal with
           | |- context [(?n <=? ?k)%nat] => destruct (n <=? k)%nat
           end;
    do 4 (simpl; rewrite <- ?app_assoc, ?app_nil_r); reflexivity.
Qed.

End AssemblerFacts.

(** ** Facts about the per-file heuristics *)

Section HeuristicFacts.

Variable w : World.

Implicit Types (fileName content diff : jsstring).

Lemma analyzeNewFile_unreadable fileName :
  readFileSync w fileName = None -> analyzeNewFile w fileName = js "new file".
Proof. unfold analyzeNewFile. intros ->. reflexivity. Qed.

Lemma analyzeModifiedFile_undiffable fileName :
  execSync w (git_diff fileName) = None ->
  analyzeModifiedFile w fileName = js "update file".
Proof. unfold analyzeModifiedFile, git_diff. intros ->. reflexivity. Qed.

Lemma analyzeNewFile_component fileName content :
  readFileSync w fileName = Some content ->
  is_component_script fileName = true ->
  analyzeNewFile w fileName =
    if has_export_default content
    then match last (split SLASH fileName) with
         | Some base => js "new React component: " ++ replace_tsx_jsx_suffix base
         | None => js "new file"
         end
    else js "new React component".
Proof.
  unfold analyzeNewFile, is_component_script, has_export_default.
  intros -> Hext. cbn. rewrite Hext. clear Hext.
  destruct (includes content _ || includes content _); [|reflexivity].
  destruct (last _); reflexivity.
Qed.

Lemma analyzeModifiedFile_component fileName diff :
  execSync w (git_diff fileName) = Some diff ->
  is_component_script fileName = true ->
  analyzeModifiedFile w fileName =
    first_match component_rules diff (js "update React component").
Proof.
  unfold analyzeModifiedFile, is_component_script, git_diff.
  intros -> Hext. cbn. rewrite Hext. clear Hext.
  repeat match goal with |- context [if ?c then _ else _] => destruct c end;
    reflexivity.
Qed.

Lemma analyzeModifiedFile_json fileName diff :
  execSync w (git_diff fileName) = Some diff ->
  is_component_script fileName = false ->
  endsWith fileName (js ".json") = true ->
  analyzeModifiedFile w fileName =
    if includes diff DEPENDENCIES then js "update dependencies"
    else if includes diff SCRIPTS then js "update npm scripts"
    else js "update configuration".
Proof.
  unfold analyzeModifiedFile, is_component_script, git_diff.
  intros -> Hext Hjson. cbn. rewrite Hext, Hjson. clear Hext Hjson.
  repeat match goal with |- context [if ?c then _ else _] => destruct c end;
    reflexivity.
Qed.

(** A path [dir ++ base ++ ext] whose [dir] is empty or ends with a slash
    and whose [base] holds no slash has [base ++ ext] as last piece. *)
Lemma last_split_path dir base :
  (dir = [] \/ last dir = Some SLASH) -> ~ In SLASH base ->
  last (split SLASH (dir ++ base)) = Some base.
Proof.
  intros Hdir Hbase.
  assert (E : last (split SLASH base) = Some base)
    by (rewrite split_without by exact Hbase; reflexivity).
  destruct Hdir as [->|Hdir]; [exact E|].
  apply last_Some in Hdir. destruct Hdir as [dir' ->].
  rewrite <- app_assoc. simpl. rewrite last_split_app. exact E.
Qed.

(** Every path splits this way, at its last slash. *)
Lemma path_splits_at_last_slash (path : jsstring) :
  exists dir base, path = dir ++ base
                   /\ (dir = [] \/ last dir = Some SLASH) /\ SLASH ∉ base.
Proof.
  induction path as [|c path (dir & base & -> & Hdir & Hbase)] using rev_ind.
  - exists [], []. split; [reflexivity|]. split; [left; reflexivity|].
    apply not_elem_of_nil.
  - destruct (decide (c = SLASH)) as [->|Hc].
    + exists ((dir ++ base) ++ [SLASH]), []. rewrite app_nil_r.
      split; [reflexivity|]. split; [right; apply last_snoc|].
      apply not_elem_of_nil.
    + exists dir, (base ++ [c]). rewrite app_assoc.
      split; [reflexivity|]. split; [exact Hdir|].
      rewrite elem_of_app, list_elem_of_singleton. intros [?|?]; auto.
Qed.

Lemma component_script_splits fileName :
  is_component_script fileName = true ->
  exists dir base ext,
    fileName = dir ++ base ++ ext /\ (ext = js ".tsx" \/ ext = js ".jsx")
    /\ (dir = [] \/ last dir = Some SLASH) /\ SLASH ∉ base.
Proof.
  unfold is_component_script. intros H. apply orb_true_iff in H.
  assert (exists stem ext, fileName = stem ++ ext
                           /\ (ext = js ".tsx" \/ ext = js ".jsx"))
    as (stem & ext & -> & Hext).
  { destruct H as [H|H]; destruct (endsWith_suffix _ _ H) as [stem ->]; eauto. }
  destruct (path_splits_at_last_slash stem) as (dir & base & -> & Hdir & Hbase).
  exists dir, base, ext. rewrite <- app_assoc. auto.
Qed.

Lemma replace_tsx_jsx_suffix_app base ext :
  ext = js ".tsx" \/ ext = js ".jsx" ->
  replace_tsx_jsx_suffix (base ++ ext) = base.
Proof.
  unfold replace_tsx_jsx_suffix. intros H.
  assert (Hlen : length ext = 4) by (destruct H as [->| ->]; reflexivity).
  assert (Hends : endsWith (base ++ ext) (js ".tsx")
                  || endsWith (base ++ ext) (js ".jsx") = true).
  { destruct H as [->| ->]; rewrite endsWith_app; auto using orb_true_r. }
  rewrite Hends, length_app, Hlen.
  replace (length base + 4 - 4) with (length base) by lia.
  rewrite firstn_app, firstn_all, Nat.sub_diag. simpl. apply app_nil_r.
Qed.

End HeuristicFacts.

(** ** The status parser: claims C1, C2 *)

Section AddedOnly.

Lemma route_added_line path : route (added_line path) = Some Added.
Proof. reflexivity. Qed.

Lemma nonblank_added_line path : nonblank (added_line path) = true.
Proof.
  unfold nonblank. apply negb_true_iff, str_eqb_neq. intros H.
  apply trim_nil in H. discriminate H.
Qed.

Lemma added_line_one_line path : LF ∉ path -> ~ In LF (added_line path).
Proof.
  intros H [E|[E|[E|E]]]; try discriminate E.
  apply H, list_elem_of_In, E.
Qed.

Lemma filter_nonblank_added paths :
  List.filter nonblank (List.map added_line paths) = List.map added_line paths.
Proof.
  induction paths as [|p paths IH]; [reflexivity|].
  cbn [List.map List.filter]. rewrite nonblank_added_line, IH. reflexivity.
Qed.

Lemma routed_added_lines c paths :
  routed c (List.map added_line paths) =
    if bool_decide (c = Added) then paths else [].
Proof.
  induction paths as [|p paths IH].
  - destruct (bool_decide _); reflexivity.
  - cbn [List.map]. rewrite routed_cons, route_added_line, IH.
    destruct c; reflexivity.
Qed.

End AddedOnly.

(** For the lines git prints for files added to the index ([A], a space,
    the separator and the path), the added sequence is the list of the
    paths and the other sequences are empty. *)
Lemma added_only_status_fills_added_only (w : World) (paths : list jsstring) :
  paths <> [] ->
  Forall (fun path => LF ∉ path) paths ->
  getGitStatus w = join [LF] (List.map added_line paths) ->
  changes (analyzeFileChanges w) =
    Categories {| added := paths; modified := []; deleted := []; renamed := [] |}.
Proof.
  intros Hne Hlines Hstatus.
  rewrite analyzeFileChanges_changes.
  - unfold status_lines. rewrite Hstatus, split_join.
    + rewrite filter_nonblank_added. unfold routed_buckets.
      rewrite !routed_added_lines. reflexivity.
    + destruct paths; easy.
    + apply Forall_map. eapply Forall_impl; [exact Hlines|].
      intros p Hp. apply added_line_one_line, Hp.
  - rewrite Hstatus. destruct paths as [|p [|q paths]]; easy.
Qed.





(** C2, as the specification words it, fails: the code [AM] (added, then
    edited) starts with [A], yet its line is dropped. *)
Lemma code_starting_with_A_is_dropped :
  status_lines added_then_edited = [js "AM notes.md"] /\
  claimed_route (js "AM notes.md") = Some Added /\
  changes (analyzeFileChanges added_then_edited) = Categories no_buckets.
Proof. vm_compute. auto. Qed.

(** C2, amended. Each non-blank line of the status text is routed by its
    two-character code with the surrounding white space removed: exactly
    [A] to added, [M] to modified, [D] to deleted, [R] to renamed, and any
    other code (two letters, [??], ...) to no category. Each category
    holds, in input order, the text from the fourth character on of the
    lines routed to it. *)
Theorem status_lines_routed_by_exact_code (w : World) :
  getGitStatus w <> [] ->
  changes (analyzeFileChanges w) =
    Categories
      {| added := routed Added (status_lines w);
         modified := routed Modified (status_lines w);
         deleted := routed Deleted (status_lines w);
         renamed := routed Renamed (status_lines w) |}.
Proof. exact (analyzeFileChanges_changes w). Qed.

Lemma status_lines_routed_witness :
  changes (analyzeFileChanges button_and_manifest) =
    Categories {| added := [js "src/Button.tsx"]; modified := [js "package.json"];
                  deleted := []; renamed := [] |}.
Proof.
  refine (eq_trans (status_lines_routed_by_exact_code button_and_manifest _) _).
  - vm_compute. discriminate.
  - vm_compute. reflexivity.
Defined.

(** ** The message assembler: claims C3, C6, C10 *)

Section Sentinel.

Implicit Types (b : Buckets) (d : gmap jsstring jsstring).

Lemma headline_first c n :
  exists u s, headline c n = u :: s /\ u <> 78%N.
Proof.
  destruct headline_literals as (u1 & s1 & u2 & s2 & u3 & s3 & u4 & s4
                                 & E1 & E2 & E3 & E4).
  assert (u1 <> 78%N /\ u2 <> 78%N /\ u3 <> 78%N /\ u4 <> 78%N) as (?&?&?&?).
  { revert E1 E2 E3 E4. vm_compute. intros [= <- _] [= <- _] [= <- _] [= <- _].
    repeat split; discriminate. }
  destruct c; unfold headline; rewrite ?E1, ?E2, ?E3, ?E4; eauto.
Qed.

Lemma summary_lines_first b d line lines :
  summary_lines b d = line :: lines ->
  exists u s, line = u :: s /\ u <> 78%N.
Proof.
  intros H.
  assert (Hin : In line (summary_lines b d)) by (rewrite H; left; reflexivity).
  unfold summary_lines, lines_with in Hin.
  apply in_flat_map in Hin. destruct Hin as (c & _ & Hc).
  destruct (bucket c b) as [|f files]; [contradiction|].
  destruct Hc as [<-|[]]. unfold summary_line.
  destruct (headline_first c (length (f :: files))) as (u & s & -> & Hu).
  eauto.
Qed.

Lemma join_first (sep : jsstring) u s (lines : list jsstring) :
  exists t, join sep ((u :: s) :: lines) = u :: t.
Proof. destruct lines; simpl; eauto. Qed.

(** The assembler never produces the sentinel of the early return. *)
Lemma assembleMessage_not_sentinel b d :
  assembleMessage b d <> js "No changes to commit".
Proof.
  rewrite assembleMessage_lines.
  destruct (summary_lines b d) as [|line lines] eqn:E; [discriminate|].
  destruct (summary_lines_first _ _ _ _ E) as (u & s & -> & Hu).
  destruct (join_first [LF] u s lines) as [t ->].
  intros [= ->]. apply Hu. reflexivity.
Qed.

Lemma routed_none c (lines : list jsstring) :
  Forall (fun line => route line = None) lines -> routed c lines = [].
Proof.
  induction 1 as [|line lines Hline _ IH]; [reflexivity|].
  rewrite routed_cons, Hline, IH. reflexivity.
Qed.

Lemma generateCommitMessage_clean w :
  getGitStatus w = [] -> generateCommitMessage w = js "No changes to commit".
Proof.
  intros H. unfold generateCommitMessage.
  rewrite analyzeFileChanges_clean by exact H. reflexivity.
Qed.

Lemma generateCommitMessage_no_lines w :
  changes (analyzeFileChanges w) = Categories no_buckets ->
  generateCommitMessage w = js "Update project files".
Proof.
  intros H. unfold generateCommitMessage. rewrite H. reflexivity.
Qed.

Lemma generateCommitMessage_sentinel w :
  generateCommitMessage w = js "No changes to commit" -> getGitStatus w = [].
Proof.
  unfold generateCommitMessage. intros H.
  destruct (changes (analyzeFileChanges w)) as [|b] eqn:E.
  - apply analyzeFileChanges_NoKeys, E.
  - exfalso. exact (assembleMessage_not_sentinel _ _ H).
Qed.

End Sentinel.

(** C3, as the specification words it, fails: the line of a deleted file
    carries no per-file description although the category has one file. *)
Lemma deleted_line_has_no_detail :
  changes (analyzeFileChanges one_deleted)
    = Categories {| added := []; modified := []; deleted := [js "old.txt"];
                    renamed := [] |} /\
  generateCommitMessage one_deleted = js "🗑️ Remove 1 file" /\
  claimed_message {| added := []; modified := []; deleted := [js "old.txt"];
                     renamed := [] |}
                  (descriptions (analyzeFileChanges one_deleted))
    = js "🗑️ Remove 1 file: deleted file" /\
  generateCommitMessage one_deleted
    <> claimed_message {| added := []; modified := []; deleted := [js "old.txt"];
                          renamed := [] |}
                       (descriptions (analyzeFileChanges one_deleted)).
Proof. vm_compute. repeat split; discriminate. Qed.

(** C3, amended. For a ChangeSet with its four categories, the assembler
    emits one summary line per non-empty category in the order added,
    modified, deleted, renamed, joined with newlines. Each line states the
    category's file count, with [files] in the plural for more than one.
    The lines of added and of modified files append a colon and the
    per-file descriptions joined with [", "] exactly when the category has
    at most 2 files; the lines of deleted and of renamed files never carry
    per-file descriptions. With no non-empty category the result is
    ["Update project files"]. *)
Theorem assembler_emits_summary_lines (b : Buckets) (d : gmap jsstring jsstring) :
  assembleMessage b d =
    match summary_lines b d with
    | [] => js "Update project files"
    | lines => join [LF] lines
    end.
Proof. exact (assembleMessage_lines b d). Qed.

(** C6. With an empty status text the generator returns the sentinel
    ["No changes to commit"]; the assembler, which then does not run,
    never produces that sentinel, and with the four categories built but
    all empty it produces ["Update project files"], a different string. *)
Theorem empty_status_sentinel_differs_from_fallback :
  (forall w, getGitStatus w = [] ->
             generateCommitMessage w = js "No changes to commit") /\
  (forall w, changes (analyzeFileChanges w) = Categories no_buckets ->
             generateCommitMessage w = js "Update project files") /\
  (forall b d, assembleMessage b d <> js "No changes to commit") /\
  js "Update project files" <> js "No changes to commit".
Proof.
  split; [exact generateCommitMessage_clean|].
  split; [exact generateCommitMessage_no_lines|].
  split; [exact assembleMessage_not_sentinel | discriminate].
Qed.

Lemma empty_status_sentinel_witness :
  generateCommitMessage clean_tree = js "No changes to commit" /\
  generateCommitMessage no_repository = js "No changes to commit" /\
  generateCommitMessage untracked_only = js "Update project files".
Proof.
  destruct empty_status_sentinel_differs_from_fallback as (Hclean & Hbuilt & _).
  split; [apply Hclean; vm_compute; reflexivity|].
  split; [apply Hclean; vm_compute; reflexivity|].
  apply Hbuilt. vm_compute. reflexivity.
Defined.

(** C10. For a non-empty status text none of whose lines has a
    recognized code the generator returns ["Update project files"]; the
    sentinel ["No changes to commit"] is returned exactly when the status
    text is empty, which is exactly when the ChangeSet has no keys. *)
Theorem unrecognized_codes_give_fallback_not_sentinel (w : World) :
  (getGitStatus w <> [] ->
   Forall (fun line => route line = None) (status_lines w) ->
   generateCommitMessage w = js "Update project files") /\
  (generateCommitMessage w = js "No changes to commit" <-> getGitStatus w = []) /\
  (changes (analyzeFileChanges w) = NoKeys <-> getGitStatus w = []).
Proof.
  split; [|split].
  - intros Hne Hlines. apply generateCommitMessage_no_lines.
    rewrite analyzeFileChanges_changes by exact Hne.
    unfold routed_buckets. rewrite !routed_none by exact Hlines. reflexivity.
  - split; [apply generateCommitMessage_sentinel | apply generateCommitMessage_clean].
  - apply analyzeFileChanges_NoKeys.
Qed.

Lemma unrecognized_codes_witness :
  status_lines untracked_only = [js "?? notes.txt"; js "?? tmp/"] /\
  generateCommitMessage untracked_only = js "Update project files".
Proof.
  split; [vm_compute; reflexivity|].
  apply (proj1 (unrecognized_codes_give_fallback_not_sentinel untracked_only)).
  - vm_compute. discriminate.
  - refine (bool_decide_unpack _ _). vm_compute. exact I.
Defined.

(** ** The per-file heuristics: claims C4, C5 *)

(** C4. An added file [dir/base.tsx] or [dir/base.jsx] whose content can
    be read is described as ["new React component: base"] when the content
    holds ["export default function"] or ["export default class"], and as
    ["new React component"] otherwise. *)
Theorem new_component_label (w : World) (dir base ext content : jsstring) :
  ext = js ".tsx" \/ ext = js ".jsx" ->
  dir = [] \/ last dir = Some SLASH ->
  SLASH ∉ base ->
  readFileSync w (dir ++ base ++ ext) = Some content ->
  analyzeNewFile w (dir ++ base ++ ext) =
    if has_export_default content
    then js "new React component: " ++ base
    else js "new React component".
Proof.
  intros Hext Hdir Hbase Hread.
  rewrite (analyzeNewFile_component w _ content Hread).
  - destruct (has_export_default content); [|reflexivity].
    rewrite last_split_path, replace_tsx_jsx_suffix_app; auto.
    intros Hin. apply in_app_or in Hin. destruct Hin as [Hin|Hin].
    + apply Hbase, list_elem_of_In, Hin.
    + destruct Hext as [-> | ->]; vm_compute in Hin; intuition discriminate.
  - unfold is_component_script. rewrite app_assoc.
    destruct Hext as [-> | ->]; rewrite endsWith_app; auto using orb_true_r.
Qed.

Lemma new_component_label_witness :
  analyzeNewFile
    (tree [] [(js "src/components/Card.tsx",
               js "export default function Card() {}")] [])
    (js "src/components/Card.tsx")
  = js "new React component: Card".
Proof.
  apply (new_component_label _ (js "src/components/") (js "Card") (js ".tsx")
           (js "export default function Card() {}")).
  - left; reflexivity.
  - right; vm_compute; reflexivity.
  - refine (bool_decide_unpack _ _). vm_compute. exact I.
  - vm_compute. reflexivity.
Defined.

(** C5. For a modified [.tsx] or [.jsx] file whose diff can be computed,
    the description is the label of the first rule of the ordered table
    styling, imports, structure, comments whose marker occurs in the diff,
    and ["update React component"] when none does; so a diff with both the
    styling and the import marker gives ["update component styling"]. *)
Theorem modified_component_first_match_wins (w : World) (fileName diff : jsstring) :
  is_component_script fileName = true ->
  execSync w (git_diff fileName) = Some diff ->
  analyzeModifiedFile w fileName
    = first_match component_rules diff (js "update React component") /\
  (includes diff (js "className=") = true ->
   includes diff (js "import ") = true ->
   analyzeModifiedFile w fileName = js "update component styling").
Proof.
  intros Hext Hdiff.
  rewrite (analyzeModifiedFile_component w fileName diff Hdiff Hext).
  split; [reflexivity|].
  intros Hstyle _. unfold component_rules, first_match. rewrite Hstyle.
  reflexivity.
Qed.

Lemma modified_component_witness :
  analyzeModifiedFile
    (tree [] [] [(js "src/App.jsx",
                  js "+import x from 'y'; <div className=")])
    (js "src/App.jsx")
  = js "update component styling".
Proof.
  refine (proj2 (modified_component_first_match_wins _ (js "src/App.jsx")
                   (js "+import x from 'y'; <div className=") _ _) _ _);
    vm_compute; reflexivity.
Defined.

(** ** Descriptions recorded by the parser: claims C7, C8 *)

Section Descriptions.

Variable w : World.

Implicit Types (b : Buckets) (d : gmap jsstring jsstring) (line : jsstring).

Lemma set_property_lookup d key value :
  key <> PROTO -> set_property d key value !! key = Some value.
Proof.
  intros H. unfold set_property. destruct (decide (key = PROTO)); [easy|].
  apply lookup_insert_eq.
Qed.

Lemma set_property_lookup_ne d key key' value :
  key <> key' -> set_property d key value !! key' = d !! key'.
Proof.
  intros H. unfold set_property. destruct (decide (key = PROTO)); [easy|].
  apply lookup_insert_ne, H.
Qed.

(** Lines that do not write under [key] leave its entry alone. *)
Lemma fold_processLine_keeps lines b d key :
  Forall (fun line => route line = None \/ path_of line <> key) lines ->
  (fold_left (processLine w) lines (b, d)).2 !! key = d !! key.
Proof.
  intros H. revert b d. induction H as [|line lines Hline _ IH]; intros b d.
  - reflexivity.
  - change (fold_left (processLine w) (line :: lines) (b, d))
      with (fold_left (processLine w) lines (processLine w (b, d) line)).
    rewrite processLine_route.
    destruct (route line) as [c|]; rewrite IH; [|reflexivity].
    destruct Hline as [|Hline]; [discriminate|].
    apply set_property_lookup_ne, Hline.
Qed.

(** The entry of a path is the description computed at the last line that
    names it. *)
Lemma fold_processLine_records before line after c b d :
  route line = Some c -> path_of line <> PROTO ->
  Forall (fun l => route l = None \/ path_of l <> path_of line) after ->
  (fold_left (processLine w) (before ++ line :: after) (b, d)).2
    !! path_of line = Some (description_of w c (path_of line)).
Proof.
  intros Hroute Hkey Hafter.
  rewrite fold_left_app.
  destruct (fold_left (processLine w) before (b, d)) as [b1 d1].
  change (fold_left (processLine w) (line :: after) (b1, d1))
    with (fold_left (processLine w) after (processLine w (b1, d1) line)).
  rewrite processLine_route, Hroute, fold_processLine_keeps by exact Hafter.
  apply set_property_lookup, Hkey.
Qed.

Lemma status_lines_nonempty :
  status_lines w <> [] -> getGitStatus w <> [].
Proof. unfold status_lines. intros H E. rewrite E in H. apply H. reflexivity. Qed.

Lemma analyzeFileChanges_records before line after c :
  status_lines w = before ++ line :: after ->
  route line = Some c -> path_of line <> PROTO ->
  Forall (fun l => route l = None \/ path_of l <> path_of line) after ->
  descriptions (analyzeFileChanges w) !! path_of line
    = Some (description_of w c (path_of line)).
Proof.
  intros Hlines Hroute Hkey Hafter.
  assert (Hne : getGitStatus w <> []).
  { apply status_lines_nonempty. rewrite Hlines. destruct before; discriminate. }
  unfold analyzeFileChanges. apply str_eqb_neq in Hne. rewrite Hne.
  fold (status_lines w). rewrite Hlines.
  pose proof (fold_processLine_records before line after c no_buckets ∅
                Hroute Hkey Hafter) as E.
  destruct (fold_left _ _ _) as [b d]. exact E.
Qed.

Lemma bucket_push c c' fileName b file :
  In file (bucket c (push c' fileName b)) ->
  In file (bucket c b) \/ file = fileName.
Proof.
  destruct c, c'; simpl; rewrite ?in_app_iff; simpl; intuition auto.
Qed.

Lemma processLine_described b d line :
  all_described b d ->
  all_described (processLine w (b, d) line).1 (processLine w (b, d) line).2.
Proof.
  intros H. rewrite processLine_route. destruct (route line) as [c'|]; [|exact H].
  intros c file Hin Hkey. cbn [fst snd] in *.
  destruct (decide (path_of line = file)) as [<-|Hne].
  - rewrite set_property_lookup by exact Hkey. eauto.
  - rewrite set_property_lookup_ne by exact Hne.
    apply bucket_push in Hin. destruct Hin as [Hin| ->]; [|contradiction].
    exact (H c file Hin Hkey).
Qed.

Lemma fold_processLine_described lines b d :
  all_described b d ->
  all_described (fold_left (processLine w) lines (b, d)).1
                (fold_left (processLine w) lines (b, d)).2.
Proof.
  revert b d; induction lines as [|line lines IH]; intros b d H; [exact H|].
  change (fold_left (processLine w) (line :: lines) (b, d))
    with (fold_left (processLine w) lines (processLine w (b, d) line)).
  pose proof (processLine_described b d line H) as H'.
  destruct (processLine w (b, d) line) as [b' d']. apply IH, H'.
Qed.

Lemma analyzeFileChanges_described b :
  changes (analyzeFileChanges w) = Categories b ->
  all_described b (descriptions (analyzeFileChanges w)).
Proof.
  unfold analyzeFileChanges. destruct (str_eqb (getGitStatus w) []); [discriminate|].
  pose proof (fold_processLine_described
                (List.filter nonblank (split LF (getGitStatus w))) no_buckets ∅) as H.
  destruct (fold_left _ _ _) as [b' d']. cbn [changes descriptions fst snd] in *.
  intros [= <-]. apply H. intros c file Hin. destruct c; contradiction.
Qed.

Lemma fileDescriptions_recorded d (files : list jsstring)
  (texts : list jsstring) :
  Forall2 (fun file text => file <> PROTO /\ d !! file = Some text) files texts ->
  fileDescriptions d files = join (js ", ") texts.
Proof.
  intros H. unfold fileDescriptions. f_equal.
  induction H as [|file text files texts [Hkey Hd] _ IH]; [reflexivity|].
  cbn [List.map]. rewrite IH. f_equal.
  unfold get_property. destruct (decide (file = PROTO)); [easy|].
  rewrite Hd. reflexivity.
Qed.

End Descriptions.

(** C7. A file that cannot be read is described as ["new file"], a file
    whose diff cannot be computed as ["update file"], and neither failure
    stops the analysis: whatever fails, every routed line reaches its
    bucket, and each path is recorded with the description computed at the
    last line naming it. *)
Theorem analysis_failures_are_local (w : World) :
  (forall fileName, readFileSync w fileName = None ->
                    analyzeNewFile w fileName = js "new file") /\
  (forall fileName, execSync w (git_diff fileName) = None ->
                    analyzeModifiedFile w fileName = js "update file") /\
  (getGitStatus w <> [] ->
   changes (analyzeFileChanges w) = Categories (routed_buckets (status_lines w))) /\
  (forall before line after c,
     status_lines w = before ++ line :: after ->
     route line = Some c -> path_of line <> PROTO ->
     Forall (fun l => route l = None \/ path_of l <> path_of line) after ->
     descriptions (analyzeFileChanges w) !! path_of line
       = Some (description_of w c (path_of line))).
Proof.
  split; [exact (analyzeNewFile_unreadable w)|].
  split; [exact (analyzeModifiedFile_undiffable w)|].
  split; [exact (analyzeFileChanges_changes w)|].
  exact (analyzeFileChanges_records w).
Qed.

Lemma analysis_failures_witness :
  analyzeNewFile unreadable_and_undiffable (js "gone.tsx") = js "new file" /\
  analyzeModifiedFile unreadable_and_undiffable (js "lost.json") = js "update file" /\
  changes (analyzeFileChanges unreadable_and_undiffable)
    = Categories {| added := [js "gone.tsx"; js "kept.css"];
                    modified := [js "lost.json"]; deleted := []; renamed := [] |} /\
  descriptions (analyzeFileChanges unreadable_and_undiffable) !! js "kept.css"
    = Some (js "new stylesheet").
Proof.
  destruct (analysis_failures_are_local unreadable_and_undiffable)
    as (Hread & Hdiff & Hbuckets & Hrecords).
  split; [apply Hread; vm_compute; reflexivity|].
  split; [apply Hdiff; vm_compute; reflexivity|].
  split; [rewrite Hbuckets; vm_compute; [reflexivity | discriminate]|].
  apply (Hrecords [js "A  gone.tsx"; js "M  lost.json"] (js "A  kept.css") []
           Added).
  - vm_compute. reflexivity.
  - vm_compute. reflexivity.
  - vm_compute. discriminate.
  - constructor.
Defined.

(** C8. With the status lines ["A  src/Button.tsx"] and
    ["M  package.json"], a readable [src/Button.tsx] without an
    export-default marker and a diff of [package.json] that holds
    ["dependencies"] in double quotes, the commit message is the two
    lines below. *)
Theorem button_and_manifest_message (w : World) (content diff : jsstring) :
  getGitStatus w = js "A  src/Button.tsx" ++ [LF] ++ js "M  package.json" ->
  readFileSync w (js "src/Button.tsx") = Some content ->
  has_export_default content = false ->
  execSync w (git_diff (js "package.json")) = Some diff ->
  includes diff DEPENDENCIES = true ->
  generateCommitMessage w =
    js "✨ Add 1 new file: new React component" ++ [LF]
      ++ js "🔧 Update 1 file: update dependencies".
Proof.
  intros Hstatus Hread Hmarker Hdiff Hdeps.
  assert (Hlines : status_lines w = [js "A  src/Button.tsx"; js "M  package.json"])
    by (unfold status_lines; rewrite Hstatus; vm_compute; reflexivity).
  assert (Hnew : analyzeNewFile w (js "src/Button.tsx") = js "new React component").
  { rewrite (analyzeNewFile_component w _ content Hread) by reflexivity.
    rewrite Hmarker. reflexivity. }
  assert (Hmod : analyzeModifiedFile w (js "package.json") = js "update dependencies").
  { rewrite (analyzeModifiedFile_json w _ diff Hdiff) by reflexivity.
    rewrite Hdeps. reflexivity. }
  assert (Hd1 : descriptions (analyzeFileChanges w) !! js "src/Button.tsx"
                = Some (js "new React component")).
  { rewrite <- Hnew.
    apply (analyzeFileChanges_records w [] (js "A  src/Button.tsx")
             [js "M  package.json"] Added Hlines); [reflexivity|discriminate|].
    constructor; [right; discriminate | constructor]. }
  assert (Hd2 : descriptions (analyzeFileChanges w) !! js "package.json"
                = Some (js "update dependencies")).
  { rewrite <- Hmod.
    apply (analyzeFileChanges_records w [js "A  src/Button.tsx"]
             (js "M  package.json") [] Modified Hlines);
      [reflexivity|discriminate|constructor]. }
  unfold generateCommitMessage.
  rewrite analyzeFileChanges_changes, Hlines
    by (rewrite Hstatus; discriminate).
  rewrite assembleMessage_lines.
  unfold summary_lines, lines_with, routed_buckets.
  change (routed Added _) with [js "src/Button.tsx"].
  change (routed Modified _) with [js "package.json"].
  change (routed Deleted _) with (@nil jsstring).
  change (routed Renamed _) with (@nil jsstring).
  cbn [flat_map categories bucket added modified deleted renamed app].
  unfold summary_line, detail. cbn [detailed length Nat.leb].
  rewrite (fileDescriptions_recorded _ [js "src/Button.tsx"]
             [js "new React component"]),
          (fileDescriptions_recorded _ [js "package.json"]
             [js "update dependencies"]).
  - vm_compute. reflexivity.
  - constructor; [split; [discriminate | exact Hd2] | constructor].
  - constructor; [split; [discriminate | exact Hd1] | constructor].
Qed.

Lemma button_and_manifest_witness :
  generateCommitMessage button_and_manifest =
    js "✨ Add 1 new file: new React component" ++ [LF]
      ++ js "🔧 Update 1 file: update dependencies".
Proof.
  apply (button_and_manifest_message button_and_manifest
           (js "export const Button = () => null;")
           (js "+  " ++ DEPENDENCIES ++ js ": {"));
    vm_compute; reflexivity.
Defined.

(** ** The bootstrap script: claim C9 *)

Section BootstrapFacts.

Import Bootstrap.

Variable w : Bootstrap.World.

Lemma main_without_cli appName message :
  run_command w (js "gh --version") = Throws message ->
  run (main w appName) =
    (Exited 1,
     [ConsoleLog [js "🔍 Checking prerequisites..."];
      Exec (js "gh --version");
      ConsoleError [js "❌ GitHub CLI (gh) is not installed."];
      ConsoleLog [js "📦 Install it from: https://cli.github.com/"]]).
Proof.
  intros H. unfold run, main, checkGitHubCLI, execSync.
  cbv [mbind mret proc_bind proc_ret console_log console_error emit
       process_exit app negb].
  rewrite H. reflexivity.
Qed.

Lemma main_without_auth appName message :
  run_command w (js "gh --version") = Succeeds ->
  run_command w (js "gh auth status") = Throws message ->
  run (main w appName) =
    (Exited 1,
     [ConsoleLog [js "🔍 Checking prerequisites..."];
      Exec (js "gh --version");
      Exec (js "gh auth status");
      ConsoleError [js "❌ You are not authenticated with GitHub CLI."];
      ConsoleLog [js "🔐 Run: gh auth login"]]).
Proof.
  intros Hcli Hauth.
  unfold run, main, checkGitHubCLI, checkGitHubAuth, execSync.
  cbv [mbind mret proc_bind proc_ret console_log console_error emit
       process_exit app negb].
  rewrite Hcli. cbv iota beta. rewrite Hauth. reflexivity.
Qed.

End BootstrapFacts.

(** C9. When [gh --version] fails, and likewise when it succeeds but
    [gh auth status] fails, the bootstrap script ends with exit status 1
    and has run no [gh repo create] command. *)
Theorem bootstrap_exits_before_repo_create (w : Bootstrap.World) :
  (forall message,
     Bootstrap.run_command w (js "gh --version") = Bootstrap.Throws message ->
     (Bootstrap.run (Bootstrap.script w)).1 = Bootstrap.Exited 1 /\
     Forall (fun e => Bootstrap.is_repo_create e = false)
            (Bootstrap.run (Bootstrap.script w)).2) /\
  (forall message,
     Bootstrap.run_command w (js "gh --version") = Bootstrap.Succeeds ->
     Bootstrap.run_command w (js "gh auth status") = Bootstrap.Throws message ->
     (Bootstrap.run (Bootstrap.script w)).1 = Bootstrap.Exited 1 /\
     Forall (fun e => Bootstrap.is_repo_create e = false)
            (Bootstrap.run (Bootstrap.script w)).2).
Proof.
  split.
  - intros message H. unfold Bootstrap.script.
    destruct (Bootstrap.package_json w) as [appName|].
    + rewrite (main_without_cli w appName message H).
      split; [reflexivity | repeat constructor].
    + split; [reflexivity | constructor].
  - intros message Hcli Hauth. unfold Bootstrap.script.
    destruct (Bootstrap.package_json w) as [appName|].
    + rewrite (main_without_auth w appName message Hcli Hauth).
      split; [reflexivity | repeat constructor].
    + split; [reflexivity | constructor].
Qed.

Lemma bootstrap_exits_witness :
  ((Bootstrap.run (Bootstrap.script gh_missing)).1 = Bootstrap.Exited 1 /\
   Forall (fun e => Bootstrap.is_repo_create e = false)
          (Bootstrap.run (Bootstrap.script gh_missing)).2) /\
  ((Bootstrap.run (Bootstrap.script gh_logged_out)).1 = Bootstrap.Exited 1 /\
   Forall (fun e => Bootstrap.is_repo_create e = false)
          (Bootstrap.run (Bootstrap.script gh_logged_out)).2).
Proof.
  split.
  - apply (proj1 (bootstrap_exits_before_repo_create gh_missing)
             (js "Command failed")).
    reflexivity.
  - apply (proj2 (bootstrap_exits_before_repo_create gh_logged_out)
             (js "Command failed: gh auth status")).
    + reflexivity.
    + reflexivity.
Defined.

(** ** Two corner cases of the parser, for the record

    [getGitStatus] trims the whole output, so a first line whose code
    starts with a space loses it and its path loses its first character;
    and a file named [__proto__] has no entry in [descriptions]. *)

Example first_line_loses_leading_space :
  changes (analyzeFileChanges unstaged_edit)
    = Categories {| added := []; modified := [js "rc/a.ts"]; deleted := [];
                    renamed := [] |}.
Proof. vm_compute. reflexivity. Qed.

Example proto_file_description :
  generateCommitMessage proto_file = js "✨ Add 1 new file: [object Object]".
Proof. vm_compute. reflexivity. Qed.

(** * Further properties *)

(** ** The workflow driver *)

Section DriverFacts.

Import GitWorkflowCLI Extra.

Variable m : Machine.

Implicit Types (s : state m).

Ltac step_driver :=
  cbv [run executeGitWorkflow main showHelp workflow_failed mbind mret
       run_bind run_ret console_log console_error emit process_exit query
       execSync_inherit negb fst snd app staging_prologue staged_message
       staged full_run].

Lemma executeGitWorkflow_uninitialized s :
  checkGitInitialized (observe m s) = false ->
  run executeGitWorkflow s =
    (Bootstrap.Exited 1,
     (s, [Bootstrap.ConsoleLog [js "🔍 Checking git status..."];
          Bootstrap.ConsoleError [js "❌ Git repository not initialized."];
          Bootstrap.ConsoleLog [js "💡 Run: git init"]])).
Proof. intros H. step_driver. rewrite H. reflexivity. Qed.

Lemma executeGitWorkflow_clean s :
  checkGitInitialized (observe m s) = true ->
  getGitStatus (observe m s) = [] ->
  run executeGitWorkflow s =
    (Bootstrap.Returned tt,
     (s, [Bootstrap.ConsoleLog [js "🔍 Checking git status..."];
          Bootstrap.ConsoleLog [js "✅ No changes to commit"]])).
Proof. intros H E. step_driver. rewrite H, E. reflexivity. Qed.

Lemma executeGitWorkflow_add_fails s message s1 :
  checkGitInitialized (observe m s) = true ->
  getGitStatus (observe m s) <> [] ->
  perform m s (js "git add .") = (Bootstrap.Throws message, s1) ->
  run executeGitWorkflow s =
    (Bootstrap.Exited 1,
     (s1, staging_prologue (getGitStatus (observe m s))
            ++ [Bootstrap.Exec (js "git add .");
                Bootstrap.ConsoleError [js "❌ Error during git workflow:"; message]])).
Proof.
  intros H E Hadd. apply str_eqb_neq in E. step_driver.
  rewrite H, E, Hadd. reflexivity.
Qed.

Lemma executeGitWorkflow_commit_fails s s1 message s2 :
  checkGitInitialized (observe m s) = true ->
  getGitStatus (observe m s) <> [] ->
  perform m s (js "git add .") = (Bootstrap.Succeeds, s1) ->
  perform m s1 (commit_command (generateCommitMessage (observe m s1)))
    = (Bootstrap.Throws message, s2) ->
  run executeGitWorkflow s =
    (Bootstrap.Exited 1,
     (s2, staging_prologue (getGitStatus (observe m s))
            ++ [Bootstrap.Exec (js "git add .");
                Bootstrap.ConsoleLog [js "💬 Commit message: "
                                        ++ generateCommitMessage (observe m s1)];
                Bootstrap.ConsoleLog [js "💾 Committing changes..."];
                Bootstrap.Exec (commit_command (generateCommitMessage (observe m s1)));
                Bootstrap.ConsoleError [js "❌ Error during git workflow:"; message]])).
Proof.
  intros H E Hadd Hcommit. apply str_eqb_neq in E. step_driver.
  rewrite H, E, Hadd. cbv iota beta. rewrite Hcommit. reflexivity.
Qed.

Lemma executeGitWorkflow_pushes s s1 s2 r s3 :
  checkGitInitialized (observe m s) = true ->
  getGitStatus (observe m s) <> [] ->
  perform m s (js "git add .") = (Bootstrap.Succeeds, s1) ->
  perform m s1 (commit_command (generateCommitMessage (observe m s1)))
    = (Bootstrap.Succeeds, s2) ->
  perform m s2 (js "git push") = (r, s3) ->
  run executeGitWorkflow s =
    (match r with
     | Bootstrap.Succeeds => Bootstrap.Returned tt
     | Bootstrap.Throws _ => Bootstrap.Exited 1
     end,
     (s3, staging_prologue (getGitStatus (observe m s))
            ++ [Bootstrap.Exec (js "git add .");
                Bootstrap.ConsoleLog [js "💬 Commit message: "
                                        ++ generateCommitMessage (observe m s1)];
                Bootstrap.ConsoleLog [js "💾 Committing changes..."];
                Bootstrap.Exec (commit_command (generateCommitMessage (observe m s1)));
                Bootstrap.ConsoleLog [js "🚀 Pushing to remote..."];
                Bootstrap.Exec (js "git push");
                match r with
                | Bootstrap.Succeeds =>
                    Bootstrap.ConsoleLog [js "✅ Git workflow completed successfully!"]
                | Bootstrap.Throws message =>
                    Bootstrap.ConsoleError [js "❌ Error during git workflow:"; message]
                end])).
Proof.
  intros H E Hadd Hcommit Hpush. apply str_eqb_neq in E. step_driver.
  rewrite H, E, Hadd. cbv iota beta. rewrite Hcommit. cbv iota beta.
  rewrite Hpush. destruct r; reflexivity.
Qed.

Lemma course_cases s : course m s.
Proof.
  destruct (checkGitInitialized (observe m s)) eqn:H;
    [|exact (Uninitialized m s H)].
  destruct (getGitStatus (observe m s)) as [|c status] eqn:E;
    [exact (Clean m s H E)|].
  assert (E' : getGitStatus (observe m s) <> []) by (rewrite E; discriminate).
  destruct (perform m s (js "git add .")) as [[|message] s1] eqn:Hadd;
    [|exact (AddFails m s message s1 H E' Hadd)].
  destruct (perform m s1 (commit_command (generateCommitMessage (observe m s1))))
    as [[|message] s2] eqn:Hcommit;
    [|exact (CommitFails m s s1 message s2 H E' Hadd Hcommit)].
  destruct (perform m s2 (js "git push")) as [r s3] eqn:Hpush.
  exact (Pushes m s s1 s2 r s3 H E' Hadd Hcommit Hpush).
Qed.

Lemma commands_app (tr tr' : list Bootstrap.event) :
  commands (tr ++ tr') = commands tr ++ commands tr'.
Proof. apply flat_map_app. Qed.

Lemma commands_prologue status : commands (staging_prologue status) = [].
Proof. reflexivity. Qed.

End DriverFacts.

(** X1. Outside a git repository the driver prints the hint, exits with
    status 1 and runs no command for its effect; the machine is left as
    it was. *)
Theorem workflow_stops_outside_repository
  (m : GitWorkflowCLI.Machine) (s : GitWorkflowCLI.state m) :
  GitWorkflowCLI.checkGitInitialized (GitWorkflowCLI.observe m s) = false ->
  (GitWorkflowCLI.run GitWorkflowCLI.executeGitWorkflow s).1 = Bootstrap.Exited 1 /\
  (GitWorkflowCLI.run GitWorkflowCLI.executeGitWorkflow s).2.1 = s /\
  GitWorkflowCLI.commands
    (GitWorkflowCLI.run GitWorkflowCLI.executeGitWorkflow s).2.2 = [].
Proof.
  intros H. rewrite (executeGitWorkflow_uninitialized m s H). auto.
Qed.

Lemma workflow_stops_witness :
  (GitWorkflowCLI.run GitWorkflowCLI.executeGitWorkflow
     (false : GitWorkflowCLI.state Sessions.outside_repository)).1
  = Bootstrap.Exited 1.
Proof.
  apply (workflow_stops_outside_repository Sessions.outside_repository false).
  reflexivity.
Defined.



(** X3. Whatever the machine, the commands the driver runs for their
    effect are an initial part of [git add .], [git commit -m "<message>"],
    [git push], in that order, where the message is generated in the state
    staging leaves: no other such command, none twice, none out of
    order. *)
Theorem workflow_commands_are_a_prefix_of_the_full_run
  (m : GitWorkflowCLI.Machine) (s : GitWorkflowCLI.state m) :
  GitWorkflowCLI.commands
    (GitWorkflowCLI.run GitWorkflowCLI.executeGitWorkflow s).2.2
  `prefix_of` GitWorkflowCLI.full_run (Extra.staged_message m s).
Proof.
  unfold Extra.staged_message, Extra.staged.
  destruct (course_cases m s) as [H|H E|msg s1 H E Ha|s1 msg s2 H E Ha Hc
                                 |s1 s2 r s3 H E Ha Hc Hp].
  - rewrite (executeGitWorkflow_uninitialized m s H). apply prefix_nil.
  - rewrite (executeGitWorkflow_clean m s H E). apply prefix_nil.
  - rewrite (executeGitWorkflow_add_fails m s msg s1 H E Ha), Ha.
    cbn [fst snd]. rewrite commands_app, commands_prologue.
    eexists; reflexivity.
  - rewrite (executeGitWorkflow_commit_fails m s s1 msg s2 H E Ha Hc), Ha.
    cbn [fst snd]. rewrite commands_app, commands_prologue.
    eexists; reflexivity.
  - rewrite (executeGitWorkflow_pushes m s s1 s2 r s3 H E Ha Hc Hp), Ha.
    cbn [fst snd]. rewrite commands_app, commands_prologue.
    exists []. destruct r; reflexivity.
Qed.


(** X4. In a repository with changes, a command that throws ends the run
    with exit status 1 and no later command is run: a failed [git add .]
    is not followed by a commit, a failed commit is not followed by a
    push. The driver returns normally only when all three have run and
    succeeded. *)
Theorem workflow_step_failure_is_fatal
  (m : GitWorkflowCLI.Machine) (s : GitWorkflowCLI.state m) :
  GitWorkflowCLI.checkGitInitialized (GitWorkflowCLI.observe m s) = true ->
  getGitStatus (GitWorkflowCLI.observe m s) <> [] ->
  let result := GitWorkflowCLI.run GitWorkflowCLI.executeGitWorkflow s in
  let message := Extra.staged_message m s in
  match GitWorkflowCLI.perform m s (js "git add .") with
  | (Bootstrap.Throws _, _) =>
      result.1 = Bootstrap.Exited 1 /\
      GitWorkflowCLI.commands result.2.2 = [js "git add ."]
  | (Bootstrap.Succeeds, s1) =>
      match GitWorkflowCLI.perform m s1 (GitWorkflowCLI.commit_command message) with
      | (Bootstrap.Throws _, _) =>
          result.1 = Bootstrap.Exited 1 /\
          GitWorkflowCLI.commands result.2.2
            = [js "git add ."; GitWorkflowCLI.commit_command message]
      | (Bootstrap.Succeeds, s2) =>
          GitWorkflowCLI.commands result.2.2 = GitWorkflowCLI.full_run message /\
          match GitWorkflowCLI.perform m s2 (js "git push") with
          | (Bootstrap.Throws _, _) => result.1 = Bootstrap.Exited 1
          | (Bootstrap.Succeeds, s3) =>
              result.1 = Bootstrap.Returned tt /\ result.2.1 = s3
          end
      end
  end.
Proof.
  intros H E result message. subst result message.
  unfold Extra.staged_message, Extra.staged.
  destruct (GitWorkflowCLI.perform m s (js "git add .")) as [[|msg] s1] eqn:Ha.
  - cbn [snd].
    destruct (GitWorkflowCLI.perform m s1 _) as [[|msg] s2] eqn:Hc.
    + destruct (GitWorkflowCLI.perform m s2 (js "git push")) as [r s3] eqn:Hp.
      rewrite (executeGitWorkflow_pushes m s s1 s2 r s3 H E Ha Hc Hp).
      cbn [fst snd]. rewrite commands_app, commands_prologue.
      destruct r; auto.
    + rewrite (executeGitWorkflow_commit_fails m s s1 msg s2 H E Ha Hc).
      cbn [fst snd]. rewrite commands_app, commands_prologue. auto.
  - rewrite (executeGitWorkflow_add_fails m s msg s1 H E Ha).
    cbn [fst snd]. rewrite commands_app, commands_prologue. auto.
Qed.

Lemma workflow_step_failure_witness :
  (GitWorkflowCLI.run GitWorkflowCLI.executeGitWorkflow
     (false : GitWorkflowCLI.state Sessions.new_card_offline)).1
  = Bootstrap.Exited 1.
Proof.
  exact (proj2 (workflow_step_failure_is_fatal Sessions.new_card_offline false
                  eq_refl ltac:(vm_compute; discriminate))).
Defined.

(** ** The command line *)

(** X5. With [--help] or [-h] among the arguments, [main] prints the help
    text and nothing else, whatever the other arguments ([--dry-run]
    included) and whatever the machine: no command is run and the machine
    is left as it was. *)
Theorem help_flag_only_prints_help
  (m : GitWorkflowCLI.Machine) (s : GitWorkflowCLI.state m)
  (args : list jsstring) :
  In (js "--help") args \/ In (js "-h") args ->
  GitWorkflowCLI.run (GitWorkflowCLI.main args) s =
    (Bootstrap.Returned tt,
     (s, [Bootstrap.ConsoleLog [GitWorkflowCLI.help_text]])).
Proof.
  intros H.
  assert (E : GitWorkflowCLI.has_flag args (js "--help")
              || GitWorkflowCLI.has_flag args (js "-h") = true).
  { apply orb_true_iff. unfold GitWorkflowCLI.has_flag.
    destruct H as [H|H]; [left|right]; apply existsb_exists;
      eexists; (split; [exact H | apply str_eqb_refl]). }
  unfold GitWorkflowCLI.run, GitWorkflowCLI.main. rewrite E. reflexivity.
Qed.

Lemma help_flag_witness :
  GitWorkflowCLI.run (GitWorkflowCLI.main [js "--dry-run"; js "-h"])
    (false : GitWorkflowCLI.state Sessions.new_card) =
    (Bootstrap.Returned tt,
     (false, [Bootstrap.ConsoleLog [GitWorkflowCLI.help_text]])).
Proof.
  apply (help_flag_only_prints_help Sessions.new_card false).
  right. right. left. reflexivity.
Defined.

(** ** The generator and the parser *)

(** X7. The commit message is never the empty string. *)
Theorem commit_message_is_never_empty (w : World) :
  generateCommitMessage w <> [].
Proof.
  unfold generateCommitMessage.
  destruct (changes (analyzeFileChanges w)) as [|b]; [discriminate|].
  rewrite assembleMessage_lines.
  destruct (summary_lines b _) as [|line lines] eqn:E; [discriminate|].
  destruct (summary_lines_first _ _ _ _ E) as (u & s & -> & _).
  destruct (join_first [LF] u s lines) as [t ->]. discriminate.
Qed.

Section Counting.

Lemma routed_lengths (lines : list jsstring) :
  length (routed Added lines) + length (routed Modified lines)
  + length (routed Deleted lines) + length (routed Renamed lines)
  = length (List.filter (fun line => bool_decide (is_Some (route line))) lines).
Proof.
  induction lines as [|line lines IH]; [reflexivity|].
  rewrite !routed_cons. cbn [List.filter].
  destruct (route line) as [[]|];
    repeat match goal with
           | |- context [bool_decide ?P] =>
               let b := eval vm_compute in (bool_decide P) in
               change (bool_decide P) with b
           end;
    cbn [length]; lia.
Qed.

End Counting.

(** X8. Every recognized status line is counted exactly once: the sizes
    of the four categories add up to the number of non-blank status lines
    whose trimmed code is one of [A], [M], [D], [R]; unrecognized lines add
    nothing. *)
Theorem every_recognized_line_is_counted_once (w : World) (b : Buckets) :
  changes (analyzeFileChanges w) = Categories b ->
  length (added b) + length (modified b) + length (deleted b)
  + length (renamed b)
  = length (List.filter (fun line => bool_decide (is_Some (route line)))
              (status_lines w))
  /\ length (added b) + length (modified b) + length (deleted b)
     + length (renamed b) <= length (status_lines w).
Proof.
  intros H.
  assert (Hne : getGitStatus w <> []).
  { intros E. apply analyzeFileChanges_NoKeys in E. congruence. }
  rewrite analyzeFileChanges_changes in H by exact Hne.
  injection H as <-. cbn [added modified deleted renamed routed_buckets].
  rewrite routed_lengths. split; [reflexivity|]. apply filter_length_le.
Qed.

Lemma every_recognized_line_witness :
  length [js "gone.tsx"; js "kept.css"] + length [js "lost.json"]
  + length (@nil jsstring) + length (@nil jsstring)
  <= length (status_lines unreadable_and_undiffable).
Proof.
  refine (proj2 (every_recognized_line_is_counted_once
                   unreadable_and_undiffable
                   {| added := [js "gone.tsx"; js "kept.css"];
                      modified := [js "lost.json"]; deleted := [];
                      renamed := [] |} _)).
  vm_compute. reflexivity.
Defined.

(** X9. The generator answers ["No changes to commit"] exactly when
    [git status --porcelain] throws or prints nothing but white space. *)
Theorem sentinel_iff_git_status_says_nothing (w : World) :
  generateCommitMessage w = js "No changes to commit" <->
  match execSync w (js "git status --porcelain") with
  | None => True
  | Some output => forallb is_white_space output = true
  end.
Proof.
  assert (E : getGitStatus w = [] <->
              match execSync w (js "git status --porcelain") with
              | None => True
              | Some output => forallb is_white_space output = true
              end).
  { unfold getGitStatus.
    destruct (execSync w (js "git status --porcelain")) as [output|]; cbn.
    - apply trim_nil.
    - tauto. }
  rewrite <- E. split.
  - apply generateCommitMessage_sentinel.
  - apply generateCommitMessage_clean.
Qed.

Section TrimFacts.

Implicit Types (s : jsstring) (c : N).

Lemma trimEnd_snoc_white s c :
  is_white_space c = true -> trimEnd (s ++ [c]) = trimEnd s.
Proof.
  intros H. unfold trimEnd. rewrite rev_app_distr. cbn [rev app trimStart].
  rewrite H. reflexivity.
Qed.

Lemma trimEnd_snoc_keep s c :
  is_white_space c = false -> trimEnd (s ++ [c]) = s ++ [c].
Proof.
  intros H. unfold trimEnd. rewrite rev_app_distr. cbn [rev app trimStart].
  rewrite H. change (c :: rev s) with (rev [c] ++ rev s).
  rewrite <- rev_app_distr. apply rev_involutive.
Qed.

Lemma letter_not_white (cat : Category) :
  is_white_space (Extra.letter cat) = false.
Proof. destruct cat; reflexivity. Qed.

Lemma route_letter (cat : Category) s :
  route (Extra.letter cat :: 32%N :: s) = Some cat.
Proof. destruct cat; reflexivity. Qed.

Lemma routed_buckets_one (cat : Category) (line : jsstring) :
  route line = Some cat ->
  routed_buckets [line] = push cat (path_of line) no_buckets.
Proof.
  intros H. unfold routed_buckets. rewrite !routed_cons, H.
  destruct cat; reflexivity.
Qed.

End TrimFacts.

(** X10. [getGitStatus] trims the whole output of [git status], so when
    the only status line has a code with a leading space (a change in the
    working tree only, as in [ M src/a.ts]) the parser sees the line
    shifted by one character: the file is put in the category of the
    letter, under its path without the first character. *)
Theorem leading_space_code_shifts_the_first_line
  (w : World) (cat : Category) (c e : N) (path : jsstring) :
  execSync w (js "git status --porcelain")
    = Some (32%N :: Extra.letter cat :: 32%N :: (c :: path) ++ [LF]) ->
  LF ∉ c :: path ->
  last (c :: path) = Some e -> is_white_space e = false ->
  changes (analyzeFileChanges w) = Categories (push cat path no_buckets).
Proof.
  intros Hout Hline Hlast He.
  assert (Hstatus : getGitStatus w = Extra.letter cat :: 32%N :: c :: path).
  { unfold getGitStatus. rewrite Hout. cbn [mbind option_bind try_catch default].
    unfold trim. cbn [trimStart]. change (is_white_space 32) with true.
    cbn iota. rewrite letter_not_white.
    change (Extra.letter cat :: 32%N :: (c :: path) ++ [LF])
      with ((Extra.letter cat :: 32%N :: c :: path) ++ [LF]).
    rewrite trimEnd_snoc_white by reflexivity.
    apply last_Some in Hlast. destruct Hlast as [body Hbody].
    rewrite Hbody.
    change (Extra.letter cat :: 32%N :: body ++ [e])
      with ((Extra.letter cat :: 32%N :: body) ++ [e]).
    apply trimEnd_snoc_keep, He. }
  assert (Hlines : status_lines w = [Extra.letter cat :: 32%N :: c :: path]).
  { unfold status_lines. rewrite Hstatus, split_without.
    - cbn [List.filter]. unfold nonblank.
      destruct (str_eqb (trim _) []) eqn:E; [|reflexivity].
      apply str_eqb_eq, trim_nil in E. cbn [forallb] in E.
      rewrite letter_not_white in E. discriminate.
    - intros [E|[E|Hin]].
      + destruct cat; discriminate.
      + discriminate.
      + apply Hline, list_elem_of_In, Hin. }
  rewrite analyzeFileChanges_changes, Hlines by (rewrite Hstatus; discriminate).
  rewrite (routed_buckets_one cat) by apply route_letter. reflexivity.
Qed.

Lemma leading_space_code_witness :
  changes (analyzeFileChanges unstaged_edit)
    = Categories {| added := []; modified := [js "rc/a.ts"]; deleted := [];
                    renamed := [] |}.
Proof.
  apply (leading_space_code_shifts_the_first_line unstaged_edit Modified
           115%N 115%N (js "rc/a.ts")).
  - reflexivity.
  - refine (bool_decide_unpack _ _). vm_compute. exact I.
  - reflexivity.
  - reflexivity.
Defined.

(** ** The heuristics by file extension *)

Section ExtensionFacts.

Implicit Types (s p q : jsstring).

Lemma startsWith_both s p q :
  startsWith s p = true -> startsWith s q = true ->
  length q <= length p -> startsWith p q = true.
Proof.
  revert s p; induction q as [|y q IH]; intros s p Hp Hq Hlen.
  - destruct p; reflexivity.
  - destruct p as [|x p]; [cbn in Hlen; lia|].
    destruct s as [|z s]; [discriminate|].
    cbn in Hp, Hq |- *.
    apply andb_true_iff in Hp. destruct Hp as [Hx Hp].
    apply andb_true_iff in Hq. destruct Hq as [Hy Hq].
    apply N.eqb_eq in Hx, Hy. subst. rewrite N.eqb_refl.
    apply (IH s p Hp Hq). cbn in Hlen. lia.
Qed.

(** Two suffixes of one string: the shorter is a suffix of the longer. *)
Lemma endsWith_both s p q :
  endsWith s p = true -> endsWith s q = true ->
  length q <= length p -> endsWith p q = true.
Proof.
  unfold endsWith. intros Hp Hq Hlen.
  apply (startsWith_both (rev s)); [exact Hp | exact Hq |].
  rewrite !length_rev. exact Hlen.
Qed.

Lemma endsWith_excludes s p q :
  endsWith s p = true ->
  (length q <= length p /\ endsWith p q = false)
  \/ (length p <= length q /\ endsWith q p = false) ->
  endsWith s q = false.
Proof.
  intros Hp H. destruct (endsWith s q) eqn:Hq; [exfalso|reflexivity].
  destruct H as [[Hlen E]|[Hlen E]].
  - rewrite (endsWith_both s p q Hp Hq Hlen) in E. discriminate.
  - rewrite (endsWith_both s q p Hq Hp Hlen) in E. discriminate.
Qed.

End ExtensionFacts.

(** The extensions the heuristics test exclude one another. *)
Ltac other_extension H :=
  apply (endsWith_excludes _ _ _ H); vm_compute;
  first [left; split; [lia | reflexivity] | right; split; [lia | reflexivity]].

(** X11. The extension of a readable added file alone decides its
    description outside the component family, whatever the content and
    whatever the order of the tests: [.css] gives ["new stylesheet"],
    [.json] ["new configuration"], [.md] ["new documentation"]; a [.ts] or
    [.js] file is a ["new configuration file"] when its path holds
    [config], else a ["new utility script"] when its path holds [script],
    else a ["new TypeScript/JavaScript file"]. *)
Theorem new_file_label_by_extension (w : World) (fileName content : jsstring) :
  readFileSync w fileName = Some content ->
  (endsWith fileName (js ".css") = true ->
   analyzeNewFile w fileName = js "new stylesheet") /\
  (endsWith fileName (js ".json") = true ->
   analyzeNewFile w fileName = js "new configuration") /\
  (endsWith fileName (js ".md") = true ->
   analyzeNewFile w fileName = js "new documentation") /\
  (endsWith fileName (js ".ts") || endsWith fileName (js ".js") = true ->
   analyzeNewFile w fileName =
     if includes fileName (js "config") then js "new configuration file"
     else if includes fileName (js "script") then js "new utility script"
     else js "new TypeScript/JavaScript file").
Proof.
  intros Hread. unfold analyzeNewFile. rewrite Hread.
  cbn [mbind option_bind]. repeat split; intros H.
  - assert (endsWith fileName (js ".tsx") = false) as -> by other_extension H.
    assert (endsWith fileName (js ".jsx") = false) as -> by other_extension H.
    assert (endsWith fileName (js ".ts") = false) as -> by other_extension H.
    assert (endsWith fileName (js ".js") = false) as -> by other_extension H.
    rewrite H. reflexivity.
  - assert (endsWith fileName (js ".tsx") = false) as -> by other_extension H.
    assert (endsWith fileName (js ".jsx") = false) as -> by other_extension H.
    assert (endsWith fileName (js ".ts") = false) as -> by other_extension H.
    assert (endsWith fileName (js ".js") = false) as -> by other_extension H.
    assert (endsWith fileName (js ".css") = false) as -> by other_extension H.
    rewrite H. reflexivity.
  - assert (endsWith fileName (js ".tsx") = false) as -> by other_extension H.
    assert (endsWith fileName (js ".jsx") = false) as -> by other_extension H.
    assert (endsWith fileName (js ".ts") = false) as -> by other_extension H.
    assert (endsWith fileName (js ".js") = false) as -> by other_extension H.
    assert (endsWith fileName (js ".css") = false) as -> by other_extension H.
    assert (endsWith fileName (js ".json") = false) as -> by other_extension H.
    rewrite H. reflexivity.
  - assert (endsWith fileName (js ".tsx") = false
            /\ endsWith fileName (js ".jsx") = false) as [-> ->].
    { apply orb_true_iff in H. destruct H as [H|H]; split; other_extension H. }
    rewrite H. cbn [orb].
    destruct (includes fileName (js "config")); [reflexivity|].
    destruct (includes fileName (js "script")); reflexivity.
Qed.

Lemma new_file_label_witness :
  analyzeNewFile (tree [] [(js "src/typescript/description.ts", js "x")] [])
                 (js "src/typescript/description.ts")
  = js "new utility script".
Proof.
  refine (eq_trans
            (proj2 (proj2 (proj2
               (new_file_label_by_extension
                  (tree [] [(js "src/typescript/description.ts", js "x")] [])
                  (js "src/typescript/description.ts") (js "x") _))) _) _);
    vm_compute; reflexivity.
Defined.

(** X12. The extension of a modified file whose diff can be computed
    decides its description outside the component family: for [.json] the
    quoted [dependencies] marker wins over the quoted [scripts] marker,
    and without either the file is an ["update configuration"]; [.css]
    gives ["update styles"], [.md] ["update documentation"], [.ts] and
    [.js] ["update code logic"], these three whatever the diff holds. *)
Theorem modified_file_label_by_extension (w : World) (fileName diff : jsstring) :
  execSync w (git_diff fileName) = Some diff ->
  (endsWith fileName (js ".json") = true ->
   analyzeModifiedFile w fileName =
     if includes diff DEPENDENCIES then js "update dependencies"
     else if includes diff SCRIPTS then js "update npm scripts"
     else js "update configuration") /\
  (endsWith fileName (js ".css") = true ->
   analyzeModifiedFile w fileName = js "update styles") /\
  (endsWith fileName (js ".md") = true ->
   analyzeModifiedFile w fileName = js "update documentation") /\
  (endsWith fileName (js ".ts") || endsWith fileName (js ".js") = true ->
   analyzeModifiedFile w fileName = js "update code logic").
Proof.
  unfold analyzeModifiedFile, git_diff. intros Hdiff. rewrite Hdiff.
  cbn [mbind option_bind]. repeat split; intros H.
  - assert (endsWith fileName (js ".tsx") = false) as -> by other_extension H.
    assert (endsWith fileName (js ".jsx") = false) as -> by other_extension H.
    rewrite H. cbn [orb].
    destruct (includes diff DEPENDENCIES); [reflexivity|].
    destruct (includes diff SCRIPTS); reflexivity.
  - assert (endsWith fileName (js ".tsx") = false) as -> by other_extension H.
    assert (endsWith fileName (js ".jsx") = false) as -> by other_extension H.
    assert (endsWith fileName (js ".json") = false) as -> by other_extension H.
    rewrite H. reflexivity.
  - assert (endsWith fileName (js ".tsx") = false) as -> by other_extension H.
    assert (endsWith fileName (js ".jsx") = false) as -> by other_extension H.
    assert (endsWith fileName (js ".json") = false) as -> by other_extension H.
    assert (endsWith fileName (js ".css") = false) as -> by other_extension H.
    rewrite H. reflexivity.
  - assert (endsWith fileName (js ".tsx") = false
            /\ endsWith fileName (js ".jsx") = false
            /\ endsWith fileName (js ".json") = false
            /\ endsWith fileName (js ".css") = false
            /\ endsWith fileName (js ".md") = false) as (-> & -> & -> & -> & ->).
    { apply orb_true_iff in H.
      destruct H as [H|H]; repeat split; other_extension H. }
    rewrite H. reflexivity.
Qed.

Lemma modified_file_label_witness :
  analyzeModifiedFile
    (tree [] [] [(js "package.json",
                  SCRIPTS ++ js ": {}, " ++ DEPENDENCIES ++ js ": {}")])
    (js "package.json")
  = js "update dependencies".
Proof.
  refine (eq_trans
            (proj1 (modified_file_label_by_extension
                      (tree [] [] [(js "package.json",
                                    SCRIPTS ++ js ": {}, " ++ DEPENDENCIES ++ js ": {}")])
                      (js "package.json")
                      (SCRIPTS ++ js ": {}, " ++ DEPENDENCIES ++ js ": {}") _) _) _);
    vm_compute; reflexivity.
Defined.

(** ** One line per category *)

Section OneLine.

Implicit Types (s p : jsstring) (d : gmap jsstring jsstring).

(** No piece of a split holds the separator, and a piece holds only code
    units of the string. *)
Lemma split_pieces_without sep s :
  Forall (fun piece => sep ∉ piece) (split sep s).
Proof.
  induction s as [|c s IH]; cbn [split].
  - repeat constructor. apply not_elem_of_nil.
  - destruct (N.eqb_spec c sep) as [->|Hc].
    + constructor; [apply not_elem_of_nil | exact IH].
    + destruct (split sep s) as [|piece pieces]; [repeat constructor|].
      * rewrite list_elem_of_singleton. congruence.
      * inversion IH as [|? ? Hpiece Hpieces]; subst. constructor; [|exact Hpieces].
        rewrite elem_of_cons. intros [E|E]; [congruence | contradiction].
Qed.

Lemma split_pieces_within sep s piece c :
  piece ∈ split sep s -> c ∈ piece -> c ∈ s.
Proof.
  revert piece; induction s as [|x s IH]; intros piece; cbn [split].
  - rewrite list_elem_of_singleton. intros ->. auto.
  - destruct (x =? sep)%N.
    + rewrite elem_of_cons. intros [->|Hin] Hc.
      * apply elem_of_nil in Hc. contradiction.
      * right. exact (IH _ Hin Hc).
    + destruct (split sep s) as [|piece' pieces] eqn:E.
      * rewrite list_elem_of_singleton. intros ->. rewrite list_elem_of_singleton.
        intros ->. left.
      * rewrite elem_of_cons. intros [->|Hin] Hc.
        -- apply elem_of_cons in Hc. destruct Hc as [->|Hc]; [left|right].
           apply (IH piece'); [left | exact Hc].
        -- right. apply (IH piece); [right; exact Hin | exact Hc].
Qed.

Lemma skipn_within (n : nat) s c : c ∈ skipn n s -> c ∈ s.
Proof.
  revert n; induction s as [|x s IH]; intros [|n]; cbn; auto.
  intros H. right. exact (IH n H).
Qed.

Lemma firstn_within (n : nat) s c : c ∈ firstn n s -> c ∈ s.
Proof.
  revert n; induction s as [|x s IH]; intros [|n]; cbn; auto.
  - intros H. apply elem_of_nil in H. contradiction.
  - rewrite !elem_of_cons. intros [->|H]; [left; reflexivity | right; eauto].
Qed.

Lemma digits_are_not_newlines (u : Decimal.uint) : LF ∉ digits u.
Proof.
  induction u; cbn [digits]; [apply not_elem_of_nil|..];
    rewrite elem_of_cons; intros [E|E]; solve [discriminate E | contradiction].
Qed.

Lemma join_without (c : N) (sep : jsstring) (parts : list jsstring) :
  c ∉ sep -> Forall (fun part => c ∉ part) parts -> c ∉ join sep parts.
Proof.
  intros Hsep. induction 1 as [|part parts Hpart Hparts IH]; cbn [join].
  - apply not_elem_of_nil.
  - destruct parts as [|part' parts]; [exact Hpart|].
    rewrite !elem_of_app. tauto.
Qed.

End OneLine.

Ltac literal_without_newline :=
  refine (bool_decide_unpack _ _); vm_compute; exact I.

Section OneLineDescriptions.

Variable w : World.

Implicit Types (d : gmap jsstring jsstring) (b : Buckets).

Lemma analyzeNewFile_one_line fileName :
  LF ∉ fileName -> LF ∉ analyzeNewFile w fileName.
Proof.
  intros Hname. unfold analyzeNewFile.
  destruct (readFileSync w fileName) as [content|];
    cbn [mbind option_bind try_catch default]; [|literal_without_newline].
  destruct (endsWith fileName (js ".tsx") || endsWith fileName (js ".jsx")).
  - destruct (includes content _ || includes content _);
      [|cbn [default]; literal_without_newline].
    destruct (last (split SLASH fileName)) as [base|] eqn:Hbase;
      cbn -[replace_tsx_jsx_suffix app]; [|literal_without_newline].
    rewrite elem_of_app. intros [H|H]; [revert H; literal_without_newline|].
    apply Hname. apply last_Some in Hbase. destruct Hbase as [pieces Hpieces].
    apply (split_pieces_within SLASH fileName base).
    + rewrite Hpieces, elem_of_app, list_elem_of_singleton. auto.
    + unfold replace_tsx_jsx_suffix in H.
      destruct (_ || _) in H; [exact (firstn_within _ _ _ H) | exact H].
  - repeat match goal with
           | |- context [if ?c then _ else _] => destruct c
           end; cbn [default]; literal_without_newline.
Qed.

Lemma analyzeModifiedFile_one_line fileName :
  LF ∉ analyzeModifiedFile w fileName.
Proof.
  unfold analyzeModifiedFile.
  destruct (execSync w _) as [diff|];
    cbn [mbind option_bind try_catch default]; [|literal_without_newline].
  repeat match goal with
         | |- context [if ?c then _ else _] => destruct c
         end; cbn [default]; literal_without_newline.
Qed.

Lemma description_of_one_line c fileName :
  LF ∉ fileName -> LF ∉ description_of w c fileName.
Proof.
  intros H. destruct c; cbn [description_of].
  - apply analyzeNewFile_one_line, H.
  - apply analyzeModifiedFile_one_line.
  - literal_without_newline.
  - literal_without_newline.
Qed.

Lemma set_property_one_line d key value :
  Extra.one_line_values d -> LF ∉ value -> Extra.one_line_values (set_property d key value).
Proof.
  intros Hd Hvalue key' value'. unfold set_property.
  destruct (decide (key = PROTO)); [apply Hd|].
  rewrite lookup_insert. destruct (decide (key = key')).
  - intros [= <-]. exact Hvalue.
  - apply Hd.
Qed.

Lemma fold_processLine_one_line lines b d :
  Forall (fun line => LF ∉ line) lines -> Extra.one_line_values d ->
  Extra.one_line_values (fold_left (processLine w) lines (b, d)).2.
Proof.
  intros Hlines. revert b d.
  induction Hlines as [|line lines Hline _ IH]; intros b d Hd; [exact Hd|].
  change (fold_left (processLine w) (line :: lines) (b, d))
    with (fold_left (processLine w) lines (processLine w (b, d) line)).
  rewrite processLine_route. destruct (route line) as [c|]; apply IH; [|exact Hd].
  apply set_property_one_line; [exact Hd|].
  apply description_of_one_line. intros H. apply Hline.
  exact (skipn_within 3 line LF H).
Qed.

Lemma status_lines_one_line : Forall (fun line => LF ∉ line) (status_lines w).
Proof.
  unfold status_lines. apply Forall_forall. intros line Hin.
  apply list_elem_of_In, filter_In in Hin. destruct Hin as [Hin _].
  pose proof (split_pieces_without LF (getGitStatus w)) as H.
  rewrite Forall_forall in H. apply H, list_elem_of_In, Hin.
Qed.

Lemma analyzeFileChanges_one_line :
  Extra.one_line_values (descriptions (analyzeFileChanges w)).
Proof.
  unfold analyzeFileChanges. destruct (str_eqb (getGitStatus w) []).
  - intros key value. cbn. rewrite lookup_empty. discriminate.
  - fold (status_lines w).
    pose proof (fold_processLine_one_line (status_lines w) no_buckets ∅
                  status_lines_one_line) as H.
    destruct (fold_left _ _ _) as [b d]. cbn in *. apply H.
    intros key value. rewrite lookup_empty. discriminate.
Qed.

End OneLineDescriptions.


Section OneLineMessage.

Implicit Types (d : gmap jsstring jsstring) (b : Buckets).

Lemma fileDescriptions_one_line d (files : list jsstring) :
  Extra.one_line_values d -> LF ∉ fileDescriptions d files.
Proof.
  intros Hd. unfold fileDescriptions.
  apply join_without; [literal_without_newline|].
  apply Forall_map, Forall_forall. intros file _. unfold get_property.
  destruct (decide (file = PROTO)); cbn [element_text];
    [literal_without_newline|].
  destruct (d !! file) as [value|] eqn:E; cbn [element_text].
  - exact (Hd file value E).
  - apply not_elem_of_nil.
Qed.

Lemma plural_one_line (n : nat) : LF ∉ plural n.
Proof.
  unfold plural. destruct (1 <? n)%nat;
    [literal_without_newline | apply not_elem_of_nil].
Qed.

Lemma headline_one_line c (n : nat) : LF ∉ headline c n.
Proof.
  pose proof (digits_are_not_newlines (Nat.to_uint n)) as Hn.
  pose proof (plural_one_line n) as Hp.
  fold (number_to_string n) in Hn.
  destruct c; unfold headline; rewrite !elem_of_app;
    intros [H|[H|[H|H]]]; try contradiction;
    revert H; literal_without_newline.
Qed.

Lemma summary_line_one_line d c (files : list jsstring) :
  Extra.one_line_values d -> LF ∉ summary_line d c files.
Proof.
  intros Hd. unfold summary_line, detail. rewrite elem_of_app.
  intros [H|H]; [exact (headline_one_line _ _ H)|].
  destruct (detailed c); [|apply elem_of_nil in H; contradiction].
  destruct (length files <=? 2)%nat; [|apply elem_of_nil in H; contradiction].
  apply elem_of_app in H. destruct H as [H|H].
  - revert H. literal_without_newline.
  - exact (fileDescriptions_one_line d files Hd H).
Qed.

Lemma summary_lines_one_line b d :
  Extra.one_line_values d -> Forall (fun line => ~ In LF line) (summary_lines b d).
Proof.
  intros Hd. apply Forall_forall. intros line Hin.
  apply list_elem_of_In in Hin. unfold summary_lines, lines_with in Hin.
  apply in_flat_map in Hin. destruct Hin as (c & _ & Hc).
  destruct (bucket c b) as [|file files]; [contradiction|].
  destruct Hc as [<-|[]]. rewrite <- list_elem_of_In.
  apply summary_line_one_line, Hd.
Qed.

Lemma summary_lines_at_most_four b d : length (summary_lines b d) <= 4.
Proof.
  unfold summary_lines, lines_with, categories. cbn [flat_map].
  rewrite ?length_app.
  destruct (bucket Added b), (bucket Modified b), (bucket Deleted b),
    (bucket Renamed b); cbn [length]; lia.
Qed.

End OneLineMessage.

(** X13. When some category is non-empty, splitting the commit message
    at its newlines gives back exactly the summary lines, one per
    non-empty category and at most four: no description brings a newline
    of its own into the message. *)
Theorem message_splits_into_summary_lines (w : World) (b : Buckets) :
  changes (analyzeFileChanges w) = Categories b ->
  summary_lines b (descriptions (analyzeFileChanges w)) <> [] ->
  split LF (generateCommitMessage w)
    = summary_lines b (descriptions (analyzeFileChanges w)) /\
  length (split LF (generateCommitMessage w)) <= 4.
Proof.
  intros Hb Hlines.
  assert (E : split LF (generateCommitMessage w)
              = summary_lines b (descriptions (analyzeFileChanges w))).
  { unfold generateCommitMessage. rewrite Hb, assembleMessage_lines.
    destruct (summary_lines b _) as [|line lines] eqn:El; [contradiction|].
    rewrite <- El. apply split_join; [rewrite El; discriminate|].
    apply summary_lines_one_line, analyzeFileChanges_one_line. }
  split; [exact E|]. rewrite E. apply summary_lines_at_most_four.
Qed.

Lemma message_splits_witness :
  split LF (generateCommitMessage button_and_manifest)
  = [js "✨ Add 1 new file: new React component";
     js "🔧 Update 1 file: update dependencies"].
Proof.
  refine (eq_trans
            (proj1 (message_splits_into_summary_lines button_and_manifest
                      {| added := [js "src/Button.tsx"];
                         modified := [js "package.json"];
                         deleted := []; renamed := [] |} _ _)) _).
  - vm_compute. reflexivity.
  - vm_compute. discriminate.
  - vm_compute. reflexivity.
Defined.

(** ** The file name in the commit command *)

Section OneAdded.

Variable w : World.

Lemma one_added_message (path : jsstring) :
  getGitStatus w = added_line path -> LF ∉ path -> path <> PROTO ->
  generateCommitMessage w = js "✨ Add 1 new file: " ++ analyzeNewFile w path.
Proof.
  intros Hstatus Hline Hkey.
  assert (Hlines : status_lines w = [added_line path]).
  { unfold status_lines. rewrite Hstatus, split_without
      by (apply added_line_one_line, Hline).
    cbn [List.filter]. rewrite nonblank_added_line. reflexivity. }
  assert (Hne : getGitStatus w <> []) by (rewrite Hstatus; discriminate).
  assert (Hd : descriptions (analyzeFileChanges w) !! path
               = Some (analyzeNewFile w path)).
  { apply (analyzeFileChanges_records w [] (added_line path) [] Added Hlines);
      [apply route_added_line | exact Hkey | constructor]. }
  unfold generateCommitMessage.
  rewrite analyzeFileChanges_changes, Hlines by exact Hne.
  rewrite (routed_buckets_one Added) by apply route_added_line.
  rewrite assembleMessage_lines.
  change (path_of (added_line path)) with path.
  unfold summary_lines, lines_with, categories, summary_line, detail.
  cbn [flat_map bucket push added modified deleted renamed no_buckets app
       detailed length Nat.leb].
  rewrite (fileDescriptions_recorded _ [path] [analyzeNewFile w path])
    by (constructor; [split; assumption | constructor]).
  generalize (analyzeNewFile w path). intros text.
  vm_compute. reflexivity.
Qed.

End OneAdded.

(** X14. The name of an added component file reaches the shell as it is.
    When staging succeeds and the status text is then the single line of
    an added [dir/base.tsx] or [dir/base.jsx] whose content holds an
    export-default marker, the second command the driver runs is
    [git commit -m "✨ Add 1 new file: new React component: base"], with
    [base] copied between the double quotes without any escaping. *)
Theorem commit_command_embeds_the_component_name
  (m : GitWorkflowCLI.Machine) (s s1 : GitWorkflowCLI.state m)
  (dir base ext content : jsstring) :
  GitWorkflowCLI.checkGitInitialized (GitWorkflowCLI.observe m s) = true ->
  getGitStatus (GitWorkflowCLI.observe m s) <> [] ->
  GitWorkflowCLI.perform m s (js "git add .") = (Bootstrap.Succeeds, s1) ->
  getGitStatus (GitWorkflowCLI.observe m s1) = added_line (dir ++ base ++ ext) ->
  ext = js ".tsx" \/ ext = js ".jsx" ->
  dir = [] \/ last dir = Some SLASH ->
  SLASH ∉ base ->
  LF ∉ dir ++ base ->
  readFileSync (GitWorkflowCLI.observe m s1) (dir ++ base ++ ext) = Some content ->
  has_export_default content = true ->
  GitWorkflowCLI.commands
    (GitWorkflowCLI.run GitWorkflowCLI.executeGitWorkflow s).2.2 !! 1
  = Some (js "git commit -m " ++ DQUOTE
            :: js "✨ Add 1 new file: new React component: " ++ base ++ [DQUOTE]).
Proof.
  intros Hinit Hne Hadd Hstatus Hext Hdir Hbase Hline Hread Hmarker.
  assert (Hext' : ~ In SLASH ext /\ (LF ∉ ext) /\ endsWith PROTO ext = false).
  { destruct Hext as [-> | ->].
    - split; [vm_compute; intuition discriminate|].
      split; [literal_without_newline | reflexivity].
    - split; [vm_compute; intuition discriminate|].
      split; [literal_without_newline | reflexivity]. }
  destruct Hext' as (Hslash & Hlf & Hproto).
  assert (Hmsg : generateCommitMessage (GitWorkflowCLI.observe m s1)
                 = js "✨ Add 1 new file: new React component: " ++ base).
  { assert (Hcomp : is_component_script (dir ++ base ++ ext) = true).
    { unfold is_component_script. rewrite app_assoc.
      destruct Hext as [-> | ->]; rewrite endsWith_app; auto using orb_true_r. }
    rewrite (one_added_message _ (dir ++ base ++ ext) Hstatus).
    - rewrite (analyzeNewFile_component _ _ content Hread Hcomp), Hmarker.
      rewrite last_split_path; [|exact Hdir|].
      + rewrite replace_tsx_jsx_suffix_app by exact Hext.
        rewrite app_assoc.
        replace (js "✨ Add 1 new file: " ++ js "new React component: ")
          with (js "✨ Add 1 new file: new React component: ")
          by (vm_compute; reflexivity).
        reflexivity.
      + intros Hin. apply in_app_or in Hin. destruct Hin as [Hin|Hin];
          [apply Hbase, list_elem_of_In, Hin | exact (Hslash Hin)].
    - rewrite app_assoc, elem_of_app. intros [H|H]; auto.
    - intros E. rewrite app_assoc in E.
      pose proof (endsWith_app (dir ++ base) ext) as Hends.
      rewrite E, Hproto in Hends. discriminate. }
  destruct (GitWorkflowCLI.perform m s1
              (GitWorkflowCLI.commit_command
                 (generateCommitMessage (GitWorkflowCLI.observe m s1))))
    as [[|message] s2] eqn:Hcommit.
  - destruct (GitWorkflowCLI.perform m s2 (js "git push")) as [r s3] eqn:Hpush.
    rewrite (executeGitWorkflow_pushes m s s1 s2 r s3 Hinit Hne Hadd Hcommit Hpush).
    cbn [fst snd]. rewrite commands_app, commands_prologue, Hmsg.
    destruct r; reflexivity.
  - rewrite (executeGitWorkflow_commit_fails m s s1 message s2 Hinit Hne Hadd Hcommit).
    cbn [fst snd]. rewrite commands_app, commands_prologue, Hmsg. reflexivity.
Qed.

Lemma commit_command_witness :
  GitWorkflowCLI.commands
    (GitWorkflowCLI.run GitWorkflowCLI.executeGitWorkflow
       (false : GitWorkflowCLI.state Sessions.new_card)).2.2 !! 1
  = Some (js "git commit -m " ++ DQUOTE
            :: js "✨ Add 1 new file: new React component: " ++ js "Card"
            ++ [DQUOTE]).
Proof.
  apply (commit_command_embeds_the_component_name Sessions.new_card false true
           (js "src/") (js "Card") (js ".tsx")
           (js "export default function Card() {}")).
  - reflexivity.
  - vm_compute. discriminate.
  - reflexivity.
  - vm_compute. reflexivity.
  - left. reflexivity.
  - right. vm_compute. reflexivity.
  - literal_without_newline.
  - literal_without_newline.
  - vm_compute. reflexivity.
  - vm_compute. reflexivity.
Defined.

(** X15. Every path the parser puts into a category, a file named
    [__proto__] apart, has an own entry in [descriptions]: the assembler
    never reads a description that was not written. *)
Theorem every_bucketed_path_is_described
  (w : World) (b : Buckets) (c : Category) (file : jsstring) :
  changes (analyzeFileChanges w) = Categories b ->
  In file (bucket c b) -> file <> PROTO ->
  is_Some (descriptions (analyzeFileChanges w) !! file).
Proof.
  intros Hb. exact (analyzeFileChanges_described w b Hb c file).
Qed.

Lemma every_bucketed_path_witness :
  is_Some (descriptions (analyzeFileChanges unreadable_and_undiffable)
             !! js "lost.json").
Proof.
  apply (every_bucketed_path_is_described unreadable_and_undiffable
           {| added := [js "gone.tsx"; js "kept.css"];
              modified := [js "lost.json"]; deleted := []; renamed := [] |}
           Modified).
  - vm_compute. reflexivity.
  - left. reflexivity.
  - vm_compute. discriminate.
Defined.

(** ** The bootstrap script, past its two checks *)

Section BootstrapCourses.

Import Bootstrap.

Variable w : Bootstrap.World.

Ltac step_bootstrap :=
  unfold script, run, main, createGitHubRepo, checkGitHubCLI, checkGitHubAuth,
    execSync;
  cbv [mbind mret proc_bind proc_ret console_log console_error emit
       process_exit negb].

Lemma script_init_fails appName message :
  package_json w = Some appName ->
  run_command w (js "gh --version") = Succeeds ->
  run_command w (js "gh auth status") = Succeeds ->
  existsSync w (js ".git") = false ->
  run_command w (js "git init") = Throws message ->
  (run (script w)).1 = Exited 1 /\
  GitWorkflowCLI.commands (run (script w)).2
    = [js "gh --version"; js "gh auth status"; js "git init"].
Proof.
  intros Hpkg Hcli Hauth Hgit Hinit. step_bootstrap.
  rewrite Hpkg, Hcli. cbv iota beta. rewrite Hauth. cbv iota beta.
  rewrite Hgit. cbv iota beta. rewrite Hinit. cbn [fst snd app].
  split; reflexivity.
Qed.

Lemma existsb_is_repo_create (trace : list event) :
  existsb is_repo_create trace
  = existsb (fun command => startsWith command (js "gh repo create"))
            (GitWorkflowCLI.commands trace).
Proof.
  induction trace as [|e trace IH]; [reflexivity|].
  destruct e; cbn [existsb GitWorkflowCLI.commands flat_map app is_repo_create];
    rewrite IH; reflexivity.
Qed.

End BootstrapCourses.

(** X16. The bootstrap script attempts [gh repo create] only after
    everything before it went well: [package.json] was loaded, both
    [gh --version] and [gh auth status] succeeded, and the directory is a
    git repository or [git init] succeeded. *)
Theorem repo_create_only_after_all_checks (w : Bootstrap.World) :
  existsb Bootstrap.is_repo_create (Bootstrap.run (Bootstrap.script w)).2 = true ->
  (exists appName, Bootstrap.package_json w = Some appName) /\
  Bootstrap.run_command w (js "gh --version") = Bootstrap.Succeeds /\
  Bootstrap.run_command w (js "gh auth status") = Bootstrap.Succeeds /\
  (Bootstrap.existsSync w (js ".git") = true
   \/ Bootstrap.run_command w (js "git init") = Bootstrap.Succeeds).
Proof.
  intros H.
  destruct (Bootstrap.package_json w) as [appName|] eqn:Hpkg;
    [|unfold Bootstrap.script in H; rewrite Hpkg in H; discriminate H].
  destruct (Bootstrap.run_command w (js "gh --version")) as [|message] eqn:Hcli.
  2:{ unfold Bootstrap.script in H.
      rewrite Hpkg, (main_without_cli w appName message Hcli) in H.
      discriminate H. }
  destruct (Bootstrap.run_command w (js "gh auth status")) as [|message] eqn:Hauth.
  2:{ unfold Bootstrap.script in H.
      rewrite Hpkg, (main_without_auth w appName message Hcli Hauth) in H.
      discriminate H. }
  destruct (Bootstrap.existsSync w (js ".git")) eqn:Hgit; [eauto 6|].
  destruct (Bootstrap.run_command w (js "git init")) as [|message] eqn:Hinit;
    [eauto 6|].
  rewrite existsb_is_repo_create in H.
  rewrite (proj2 (script_init_fails w appName message Hpkg Hcli Hauth Hgit Hinit))
    in H.
  discriminate H.
Qed.

Lemma repo_create_witness :
  Bootstrap.run_command Sessions.name_taken (js "gh auth status")
  = Bootstrap.Succeeds.
Proof.
  apply (repo_create_only_after_all_checks Sessions.name_taken).
  vm_compute. reflexivity.
Defined.

(** X17. Once both checks have passed and the directory is a git
    repository, or [git init] has succeeded, the script returns normally
    whether [gh repo create] succeeds or throws: a failed creation is
    reported, not fatal. The commands run are the two checks, [git init]
    only when [.git] is missing, and one [gh repo create] for the package
    name, or for the directory name when the package has no name. *)
Theorem repo_creation_failure_is_not_fatal
  (w : Bootstrap.World) (appName : option jsstring) :
  Bootstrap.package_json w = Some appName ->
  Bootstrap.run_command w (js "gh --version") = Bootstrap.Succeeds ->
  Bootstrap.run_command w (js "gh auth status") = Bootstrap.Succeeds ->
  Bootstrap.existsSync w (js ".git") = true
  \/ Bootstrap.run_command w (js "git init") = Bootstrap.Succeeds ->
  (Bootstrap.run (Bootstrap.script w)).1 = Bootstrap.Returned tt /\
  GitWorkflowCLI.commands (Bootstrap.run (Bootstrap.script w)).2
    = [js "gh --version"; js "gh auth status"]
        ++ (if Bootstrap.existsSync w (js ".git") then [] else [js "git init"])
        ++ [js "gh repo create "
              ++ match appName with
                 | Some (c :: name) => c :: name
                 | _ => Bootstrap.cwd_basename w
                 end
              ++ js " --public --source=. --remote=origin --push"].
Proof.
  intros Hpkg Hcli Hauth Hgit.
  unfold Bootstrap.script, Bootstrap.run, Bootstrap.main,
    Bootstrap.createGitHubRepo, Bootstrap.checkGitHubCLI,
    Bootstrap.checkGitHubAuth, Bootstrap.execSync.
  cbv [mbind mret Bootstrap.proc_bind Bootstrap.proc_ret Bootstrap.console_log
       Bootstrap.console_error Bootstrap.emit Bootstrap.process_exit negb].
  fold (Bootstrap.repoName appName (Bootstrap.cwd_basename w)).
  rewrite Hpkg, Hcli. cbv iota beta. rewrite Hauth. cbv iota beta.
  destruct (Bootstrap.existsSync w (js ".git")) eqn:E; cbv iota beta.
  - destruct (Bootstrap.run_command w (_ ++ _)); cbn [fst snd app];
      split; reflexivity.
  - destruct Hgit as [Hgit|Hgit]; [discriminate|]. rewrite Hgit. cbv iota beta.
    destruct (Bootstrap.run_command w (_ ++ _)); cbn [fst snd app];
      split; reflexivity.
Qed.

Lemma repo_creation_failure_witness :
  (Bootstrap.run (Bootstrap.script Sessions.name_taken)).1 = Bootstrap.Returned tt.
Proof.
  apply (repo_creation_failure_is_not_fatal Sessions.name_taken
           (Some (js "calendar"))); try reflexivity.
  left. reflexivity.
Defined.

(** X18. In a directory without [.git], a failing [git init] ends the
    script with exit status 1 after the two checks: no repository is
    created. *)
Theorem failed_git_init_is_fatal
  (w : Bootstrap.World) (appName : option jsstring) (message : jsstring) :
  Bootstrap.package_json w = Some appName ->
  Bootstrap.run_command w (js "gh --version") = Bootstrap.Succeeds ->
  Bootstrap.run_command w (js "gh auth status") = Bootstrap.Succeeds ->
  Bootstrap.existsSync w (js ".git") = false ->
  Bootstrap.run_command w (js "git init") = Bootstrap.Throws message ->
  (Bootstrap.run (Bootstrap.script w)).1 = Bootstrap.Exited 1 /\
  GitWorkflowCLI.commands (Bootstrap.run (Bootstrap.script w)).2
    = [js "gh --version"; js "gh auth status"; js "git init"].
Proof. exact (script_init_fails w appName message). Qed.

Lemma failed_git_init_witness :
  (Bootstrap.run (Bootstrap.script Sessions.init_refused)).1 = Bootstrap.Exited 1.
Proof.
  apply (failed_git_init_is_fatal Sessions.init_refused None
           (js "Command failed: git init")); reflexivity.
Defined.

(** ** Paths that end in a double quote *)

Section QuotedPaths.

Implicit Types (s p : jsstring).

Lemma endsWith_last s p x :
  endsWith s (p ++ [x]) = true -> last s = Some x.
Proof.
  intros H. destruct (endsWith_suffix _ _ H) as [t ->].
  rewrite app_assoc. apply last_snoc.
Qed.

Lemma quoted_has_no_extension s ext x :
  last s = Some DQUOTE -> x <> DQUOTE -> endsWith s (ext ++ [x]) = false.
Proof.
  intros Hs Hx. destruct (endsWith s (ext ++ [x])) eqn:E; [|reflexivity].
  apply endsWith_last in E. congruence.
Qed.

End QuotedPaths.

Ltac no_extension H :=
  repeat match goal with
         | |- context [endsWith ?f (js ?lit)] =>
             let E := fresh "E" in
             assert (E : endsWith f (js lit) = false);
             [ let body := eval vm_compute in (removelast (js lit)) in
               let x := eval vm_compute in (List.last (js lit) 0%N) in
               change (js lit) with (body ++ [x]);
               apply (quoted_has_no_extension f body x H); discriminate
             | rewrite E; clear E ]
         end.

(** X19. A path that ends in a double quote, as the paths git prints in
    quoted form do, matches none of the extensions: as an added file it is
    always described as ["new file"], as a modified file as
    ["update file content"] when its diff can be computed and as
    ["update file"] when not. *)
Theorem quoted_paths_get_the_generic_labels (w : World) (fileName : jsstring) :
  last fileName = Some DQUOTE ->
  analyzeNewFile w fileName = js "new file" /\
  analyzeModifiedFile w fileName =
    match execSync w (git_diff fileName) with
    | Some _ => js "update file content"
    | None => js "update file"
    end.
Proof.
  intros H. split.
  - unfold analyzeNewFile.
    destruct (readFileSync w fileName) as [content|]; [|reflexivity].
    cbn [mbind option_bind]. no_extension H. reflexivity.
  - unfold analyzeModifiedFile, git_diff.
    destruct (execSync w _) as [diff|]; [|reflexivity].
    cbn [mbind option_bind]. no_extension H. reflexivity.
Qed.

Lemma quoted_paths_witness :
  analyzeNewFile
    (tree [] [(DQUOTE :: js "my card.tsx" ++ [DQUOTE],
               js "export default function Card() {}")] [])
    (DQUOTE :: js "my card.tsx" ++ [DQUOTE])
  = js "new file".
Proof.
  apply (quoted_paths_get_the_generic_labels _
           (DQUOTE :: js "my card.tsx" ++ [DQUOTE])).
  vm_compute. reflexivity.
Defined.

(** ** What the driver prints and what it commits *)

(** X20. Whenever the driver runs a second command, that command is the
    commit of the message generated after staging, and the console has
    shown exactly that message. *)
Theorem printed_message_is_the_committed_message
  (m : GitWorkflowCLI.Machine) (s : GitWorkflowCLI.state m)
  (command : jsstring) :
  GitWorkflowCLI.commands
    (GitWorkflowCLI.run GitWorkflowCLI.executeGitWorkflow s).2.2 !! 1
    = Some command ->
  command = GitWorkflowCLI.commit_command (Extra.staged_message m s) /\
  In (Bootstrap.ConsoleLog [js "💬 Commit message: " ++ Extra.staged_message m s])
     (GitWorkflowCLI.run GitWorkflowCLI.executeGitWorkflow s).2.2.
Proof.
  unfold Extra.staged_message, Extra.staged.
  destruct (course_cases m s) as [H|H E|msg s1 H E Ha|s1 msg s2 H E Ha Hc
                                 |s1 s2 r s3 H E Ha Hc Hp].
  - rewrite (executeGitWorkflow_uninitialized m s H). discriminate.
  - rewrite (executeGitWorkflow_clean m s H E). discriminate.
  - rewrite (executeGitWorkflow_add_fails m s msg s1 H E Ha).
    cbn [fst snd]. rewrite commands_app, commands_prologue. discriminate.
  - rewrite (executeGitWorkflow_commit_fails m s s1 msg s2 H E Ha Hc), Ha.
    cbn [fst snd]. rewrite commands_app, commands_prologue.
    intros [= <-]. split; [reflexivity|].
    apply in_or_app. right. right. left. reflexivity.
  - rewrite (executeGitWorkflow_pushes m s s1 s2 r s3 H E Ha Hc Hp), Ha.
    cbn [fst snd]. rewrite commands_app, commands_prologue.
    intros [= <-]. split; [reflexivity|].
    apply in_or_app. right. right. left. reflexivity.
Qed.

Lemma printed_message_witness :
  In (Bootstrap.ConsoleLog
        [js "💬 Commit message: "
           ++ Extra.staged_message Sessions.new_card false])
     (GitWorkflowCLI.run GitWorkflowCLI.executeGitWorkflow
        (false : GitWorkflowCLI.state Sessions.new_card)).2.2.
Proof.
  apply (printed_message_is_the_committed_message Sessions.new_card false
           (GitWorkflowCLI.commit_command
              (Extra.staged_message Sessions.new_card false))).
  vm_compute. reflexivity.
Defined.

(** X21. A dry run does not check that the directory is a repository:
    when [git status --porcelain] throws, [main] with [--dry-run] and no
    help flag reports that there is nothing to commit and returns
    normally. *)
Theorem dry_run_outside_a_repository_reports_a_clean_tree
  (m : GitWorkflowCLI.Machine) (s : GitWorkflowCLI.state m)
  (args : list jsstring) :
  In (js "--dry-run") args ->
  ~ In (js "--help") args -> ~ In (js "-h") args ->
  execSync (GitWorkflowCLI.observe m s) (js "git status --porcelain") = None ->
  GitWorkflowCLI.run (GitWorkflowCLI.main args) s =
    (Bootstrap.Returned tt,
     (s, [Bootstrap.ConsoleLog [js "🔍 Dry run mode - checking what would be done..."];
          Bootstrap.ConsoleLog [js "✅ No changes to commit"]])).
Proof.
  intros Hdry Hhelp Hh Hgit.
  assert (Hflag : forall flag,
            GitWorkflowCLI.has_flag args flag = true <-> In flag args).
  { intros flag. unfold GitWorkflowCLI.has_flag. rewrite existsb_exists. split.
    - intros (x & Hx & E). apply str_eqb_eq in E. subst. exact Hx.
    - intros Hx. exists flag. split; [exact Hx | apply str_eqb_refl]. }
  assert (E1 : GitWorkflowCLI.has_flag args (js "--help") = false).
  { destruct (GitWorkflowCLI.has_flag args (js "--help")) eqn:E; [|reflexivity].
    apply Hflag in E. contradiction. }
  assert (E2 : GitWorkflowCLI.has_flag args (js "-h") = false).
  { destruct (GitWorkflowCLI.has_flag args (js "-h")) eqn:E; [|reflexivity].
    apply Hflag in E. contradiction. }
  apply Hflag in Hdry.
  unfold GitWorkflowCLI.run, GitWorkflowCLI.main. rewrite E1, E2, Hdry.
  cbv [mbind mret GitWorkflowCLI.run_bind GitWorkflowCLI.run_ret
       GitWorkflowCLI.console_log GitWorkflowCLI.emit GitWorkflowCLI.query
       fst snd app orb].
  unfold getGitStatus. rewrite Hgit. reflexivity.
Qed.

Lemma dry_run_outside_witness :
  GitWorkflowCLI.run (GitWorkflowCLI.main [js "--dry-run"])
    (false : GitWorkflowCLI.state Sessions.outside_repository) =
    (Bootstrap.Returned tt,
     (false,
      [Bootstrap.ConsoleLog [js "🔍 Dry run mode - checking what would be done..."];
       Bootstrap.ConsoleLog [js "✅ No changes to commit"]])).
Proof.
  apply (dry_run_outside_a_repository_reports_a_clean_tree
           Sessions.outside_repository false [js "--dry-run"]).
  - left. reflexivity.
  - vm_compute. intuition discriminate.
  - vm_compute. intuition discriminate.
  - reflexivity.
Defined.
